(** * Solar-system gesture core: store, gesture tracker, camera controller

    A shallow embedding of the three pieces of the application that
    carry decisions:

    - the zustand store (module [store]: [useStore], [MAX_ZOOM],
      [MIN_ZOOM]);
    - the per-frame gesture logic of [predictWebcam], in its two
      versions (the wrist-distance test and the vertical test of
      [components/HandTracker.tsx]);
    - the camera logic of the [useFrame] callback of [SolarSystem].

    JavaScript numbers are idealised as real numbers ([R]): rounding,
    infinities and NaN are outside the model.  [Math.max], [Math.min],
    [Math.sqrt], [Math.cos], [Math.sin] and [Math.abs] are the functions
    of the same name on [R].  The zoom operations are given a second
    time on binary64 numbers ([Binary64]), with NaN and rounding; the
    range invariant and the saturation of the zoom level are stated
    there.  Gesture labels and focus targets are the strings the
    running program stores; the union types that TypeScript attaches
    to them are kept as membership tests on strings. *)

From Stdlib Require Import Reals Lra Lia List String Bool.
From Stdlib Require Floats.PrimFloat Floats.FloatOps Floats.FloatAxioms Floats.SpecFloat.
From Stdlib Require Import ZArith.
Import ListNotations.

Open Scope R_scope.
Open Scope string_scope.

(** ** Numbers *)

Definition Rltb (a b : R) : bool := if Rlt_dec a b then true else false.
Definition Rgtb (a b : R) : bool := Rltb b a.

(** ** The store *)

Module Store.

Definition MAX_ZOOM : R := 1.0.
Definition MIN_ZOOM : R := -0.5.

Record Rotation := mkRotation { rot_x : R; rot_y : R }.

(** The data fields of [AppState]; the function fields are the
    definitions below. *)
Record AppState := mkAppState {
  zoomLevel : R;
  gestureStatus : string;
  focusTarget : string;
  saturnRotation : Rotation
}.

(** The union type declared for [gestureStatus] and for the parameter
    of [setGestureStatus]. *)
Definition gestureStatus_type : list string :=
  ["IDLE"; "POINT"; "PINCH"; "TWO"; "OPEN"].

(** The union type declared for [focusTarget] and for the parameter of
    [setFocusTarget]. *)
Definition focusTarget_type : list string :=
  ["NONE"; "SATURN"; "EARTH"].

Definition has_type (ty : list string) (v : string) : bool :=
  existsb (String.eqb v) ty.

(** What a caller hands to zustand's [set]: an object holding some of
    the fields. *)
Record PartialState := mkPartial {
  p_zoomLevel : option R;
  p_gestureStatus : option string;
  p_focusTarget : option string;
  p_saturnRotation : option Rotation
}.

Definition or_else {A : Type} (o : option A) (d : A) : A :=
  match o with Some a => a | None => d end.

(** [set(partial)]: the new state is the old one overwritten by the
    fields present in [partial]. *)
Definition set (partial : PartialState) (state : AppState) : AppState :=
  {| zoomLevel := or_else (p_zoomLevel partial) (zoomLevel state);
     gestureStatus := or_else (p_gestureStatus partial) (gestureStatus state);
     focusTarget := or_else (p_focusTarget partial) (focusTarget state);
     saturnRotation := or_else (p_saturnRotation partial) (saturnRotation state) |}.

(** [set(fn)]: [fn] reads the state current at the time of the call. *)
Definition set_with (fn : AppState -> PartialState) (state : AppState) : AppState :=
  set (fn state) state.

(** The initial state built by [create]. *)
Definition useStore : AppState :=
  {| zoomLevel := 0.2;
     gestureStatus := "IDLE";
     focusTarget := "NONE";
     saturnRotation := {| rot_x := 0; rot_y := 0 |} |}.

Definition setZoomLevel (level : R) : AppState -> AppState :=
  set {| p_zoomLevel := Some (Rmax MIN_ZOOM (Rmin MAX_ZOOM level));
         p_gestureStatus := None; p_focusTarget := None; p_saturnRotation := None |}.

Definition increaseZoom (amount : R) : AppState -> AppState :=
  set_with (fun state =>
    {| p_zoomLevel := Some (Rmax MIN_ZOOM (Rmin MAX_ZOOM (zoomLevel state + amount)));
       p_gestureStatus := None; p_focusTarget := None; p_saturnRotation := None |}).

Definition decreaseZoom (amount : R) : AppState -> AppState :=
  set_with (fun state =>
    {| p_zoomLevel := Some (Rmax MIN_ZOOM (Rmin MAX_ZOOM (zoomLevel state - amount)));
       p_gestureStatus := None; p_focusTarget := None; p_saturnRotation := None |}).

Definition setGestureStatus (status : string) : AppState -> AppState :=
  set {| p_zoomLevel := None; p_gestureStatus := Some status;
         p_focusTarget := None; p_saturnRotation := None |}.

Definition setFocusTarget (target : string) : AppState -> AppState :=
  set {| p_zoomLevel := None; p_gestureStatus := None;
         p_focusTarget := Some target; p_saturnRotation := None |}.

Definition setSaturnRotation (x y : R) : AppState -> AppState :=
  set {| p_zoomLevel := None; p_gestureStatus := None; p_focusTarget := None;
         p_saturnRotation := Some {| rot_x := x; rot_y := y |} |}.

Definition zoom_in_range (z : R) : Prop := MIN_ZOOM <= z <= MAX_ZOOM.

(** All six operations of the store, as data. *)
Inductive Operation :=
| OpSetZoomLevel (level : R)
| OpIncreaseZoom (amount : R)
| OpDecreaseZoom (amount : R)
| OpSetGestureStatus (status : string)
| OpSetFocusTarget (target : string)
| OpSetSaturnRotation (x y : R).

Definition perform (op : Operation) : AppState -> AppState :=
  match op with
  | OpSetZoomLevel level => setZoomLevel level
  | OpIncreaseZoom amount => increaseZoom amount
  | OpDecreaseZoom amount => decreaseZoom amount
  | OpSetGestureStatus status => setGestureStatus status
  | OpSetFocusTarget target => setFocusTarget target
  | OpSetSaturnRotation x y => setSaturnRotation x y
  end.

(** The four fields, to say which one an operation writes. *)
Inductive Field := FZoomLevel | FGestureStatus | FFocusTarget | FSaturnRotation.

Definition written_field (op : Operation) : Field :=
  match op with
  | OpSetZoomLevel _ | OpIncreaseZoom _ | OpDecreaseZoom _ => FZoomLevel
  | OpSetGestureStatus _ => FGestureStatus
  | OpSetFocusTarget _ => FFocusTarget
  | OpSetSaturnRotation _ _ => FSaturnRotation
  end.

(** The fields a partial object carries. *)
Definition present {A : Type} (o : option A) : bool :=
  match o with Some _ => true | None => false end.

Definition fields_of (p : PartialState) : list Field :=
  (if present (p_zoomLevel p) then [FZoomLevel] else [])
  ++ (if present (p_gestureStatus p) then [FGestureStatus] else [])
  ++ (if present (p_focusTarget p) then [FFocusTarget] else [])
  ++ (if present (p_saturnRotation p) then [FSaturnRotation] else []).

(** Two states agree on a field. *)
Definition same_field (f : Field) (s s' : AppState) : Prop :=
  match f with
  | FZoomLevel => zoomLevel s' = zoomLevel s
  | FGestureStatus => gestureStatus s' = gestureStatus s
  | FFocusTarget => focusTarget s' = focusTarget s
  | FSaturnRotation => saturnRotation s' = saturnRotation s
  end.

End Store.

(** ** The zoom operations on binary64 numbers

    The three zoom operations once more, on the doubles the program
    runs on: [Math.max] and [Math.min] return NaN when an argument is
    NaN, and sums and differences are rounded. *)

Module Binary64.

Import PrimFloat.
#[local] Set Warnings "-inexact-float".
Local Open Scope bool_scope.
Local Open Scope float_scope.

Definition is_nan (a : float) : bool := negb (a =? a).

(** [Math.min] and [Math.max] of two numbers: NaN when either is NaN,
    and [-0] below [+0]. *)
Definition Math_min (a b : float) : float :=
  if is_nan a || is_nan b then nan
  else if a <? b then a
  else if b <? a then b
  else if (1 / a) <? (1 / b) then a else b.

Definition Math_max (a b : float) : float :=
  if is_nan a || is_nan b then nan
  else if a <? b then b
  else if b <? a then a
  else if (1 / a) <? (1 / b) then b else a.

Definition MAX_ZOOM : float := 1.0.
Definition MIN_ZOOM : float := -0.5.

(** The initial [zoomLevel]. *)
Definition initial_zoomLevel : float := 0.2.

(** The per-frame amount [predictWebcam] passes. *)
Definition step : float := 0.015.

Definition setZoomLevel (level : float) (zoomLevel : float) : float :=
  Math_max MIN_ZOOM (Math_min MAX_ZOOM level).

Definition increaseZoom (amount : float) (zoomLevel : float) : float :=
  Math_max MIN_ZOOM (Math_min MAX_ZOOM (zoomLevel + amount)).

Definition decreaseZoom (amount : float) (zoomLevel : float) : float :=
  Math_max MIN_ZOOM (Math_min MAX_ZOOM (zoomLevel - amount)).

Definition in_range (z : float) : bool := (MIN_ZOOM <=? z) && (z <=? MAX_ZOOM).

(** The levels after 0, 1, ..., [n] calls of [op]. *)
Fixpoint levels (n : nat) (op : float -> float) (z : float) : list float :=
  match n with
  | O => [z]
  | S k => z :: levels k op (op z)
  end.

Fixpoint nondecreasing (l : list float) : bool :=
  match l with
  | a :: (b :: _) as rest => (a <=? b) && nondecreasing rest
  | _ => true
  end.










(** The width of the zoom bar of [UIOverlay] and the place of its zero
    mark, in percent. *)
Definition range : float := MAX_ZOOM - MIN_ZOOM.

Definition barPercentage (zoomLevel : float) : float :=
  ((zoomLevel - MIN_ZOOM) / range) * 100.

Definition zeroMark : float := (- MIN_ZOOM / range) * 100.

Definition empty_bar : float := 0.
Definition full_bar : float := 100.


End Binary64.

(** ** Effects of the per-frame callback

    [predictWebcam] reads landmarks, which throws a [TypeError] when a
    landmark is [undefined], and calls store operations.  A computation
    takes the store state and gives an outcome together with the store
    state reached: a throw keeps the writes made before it. *)

Module Eff.

Inductive Outcome (A : Type) : Type :=
| Returned (a : A)
| Threw_TypeError.
Arguments Returned {A} a.
Arguments Threw_TypeError {A}.

Definition t (A : Type) : Type := Store.AppState -> Outcome A * Store.AppState.

Definition ret {A : Type} (a : A) : t A := fun s => (Returned a, s).

Definition throw {A : Type} : t A := fun s => (Threw_TypeError, s).

Definition bind {A B : Type} (m : t A) (k : A -> t B) : t B :=
  fun s =>
    match m s with
    | (Returned a, s') => k a s'
    | (Threw_TypeError, s') => (Threw_TypeError, s')
    end.

(** A call of a store operation. *)
Definition call (op : Store.AppState -> Store.AppState) : t unit :=
  fun s => (Returned tt, op s).

End Eff.

Declare Scope eff_scope.
Delimit Scope eff_scope with eff.
Notation "x <- m ;; k" := (Eff.bind m (fun x => k))
  (at level 61, m at next level, right associativity) : eff_scope.
Notation "m ;;; k" := (Eff.bind m (fun _ => k))
  (at level 61, right associativity) : eff_scope.

(** ** Landmarks *)

Module Landmark.

(** One [NormalizedLandmark] of the detector. *)
Record t := mk { x : R; y : R; z : R }.

(** [landmarks[i]]: [None] is JavaScript's [undefined]. *)
Definition at_index (landmarks : list t) (i : nat) : option t := nth_error landmarks i.

(** [p.x] and [p.y]: reading a property of [undefined] throws. *)
Definition get_x (p : option t) : Eff.t R :=
  match p with Some l => Eff.ret (x l) | None => Eff.throw end.

Definition get_y (p : option t) : Eff.t R :=
  match p with Some l => Eff.ret (y l) | None => Eff.throw end.

Definition origin : t := mk 0 0 0.

(** Total access, for statements about frames known to be long enough. *)
Definition pt (landmarks : list t) (i : nat) : t := nth i landmarks origin.

End Landmark.

Local Open Scope eff_scope.

(** ** The gesture logic, wrist-distance version

    The version of [predictWebcam] whose finger test compares squared
    distances from the wrist. *)

Module HandTrackerWrist.

Import Store.

(** The union type declared for the local [detectedGesture]. *)
Definition detectedGesture_type : list string :=
  ["IDLE"; "POINT"; "PINCH"; "TWO"; "THREE"; "OPEN"].

(** The body of [isExtended] once its three landmarks are read. *)
Definition extended (wrist tip pip : Landmark.t) : bool :=
  let dTip := (Landmark.x tip - Landmark.x wrist) ^ 2 + (Landmark.y tip - Landmark.y wrist) ^ 2 in
  let dPip := (Landmark.x pip - Landmark.x wrist) ^ 2 + (Landmark.y pip - Landmark.y wrist) ^ 2 in
  Rgtb dTip (dPip * 1.1).

Definition isExtended (landmarks : list Landmark.t) (tipIdx pipIdx : nat) : Eff.t bool :=
  let wrist := Landmark.at_index landmarks 0 in
  let tip := Landmark.at_index landmarks tipIdx in
  let pip := Landmark.at_index landmarks pipIdx in
  tx <- Landmark.get_x tip ;; wx <- Landmark.get_x wrist ;;
  ty <- Landmark.get_y tip ;; wy <- Landmark.get_y wrist ;;
  let dTip := (tx - wx) ^ 2 + (ty - wy) ^ 2 in
  px <- Landmark.get_x pip ;; wx' <- Landmark.get_x wrist ;;
  py <- Landmark.get_y pip ;; wy' <- Landmark.get_y wrist ;;
  let dPip := (px - wx') ^ 2 + (py - wy') ^ 2 in
  Eff.ret (Rgtb dTip (dPip * 1.1)).

(** The [if] / [else if] chain: it calls the store and gives the value
    left in [detectedGesture]. *)
Definition recognise (indexOpen middleOpen ringOpen pinkyOpen isPinch : bool)
    (indexTip : option Landmark.t) : Eff.t string :=
  if indexOpen && middleOpen && ringOpen && negb pinkyOpen then
    Eff.call (setFocusTarget "MOON") ;;;
    Eff.ret "THREE"
  else if indexOpen && middleOpen && negb ringOpen && negb pinkyOpen then
    Eff.call (setFocusTarget "EARTH") ;;;
    Eff.ret "TWO"
  else if indexOpen && negb middleOpen && negb ringOpen && negb pinkyOpen then
    Eff.call (setFocusTarget "SATURN") ;;;
    ix <- Landmark.get_x indexTip ;;
    let rotY := (ix - 0.5) * 4.0 in
    iy <- Landmark.get_y indexTip ;;
    let rotX := (iy - 0.5) * 4.0 in
    Eff.call (setSaturnRotation rotX rotY) ;;;
    Eff.ret "POINT"
  else if indexOpen && middleOpen && ringOpen && pinkyOpen then
    Eff.call (increaseZoom 0.015) ;;;
    Eff.ret "OPEN"
  else if isPinch then
    Eff.call (setFocusTarget "NONE") ;;;
    Eff.call (decreaseZoom 0.015) ;;;
    Eff.ret "PINCH"
  else
    Eff.ret "IDLE".

(** The branch taken when a hand is present. *)
Definition handPresent (landmarks : list Landmark.t) : Eff.t unit :=
  let thumbTip := Landmark.at_index landmarks 4 in
  let indexTip := Landmark.at_index landmarks 8 in
  indexOpen <- isExtended landmarks 8 6 ;;
  middleOpen <- isExtended landmarks 12 10 ;;
  ringOpen <- isExtended landmarks 16 14 ;;
  pinkyOpen <- isExtended landmarks 20 18 ;;
  tx <- Landmark.get_x thumbTip ;; ix <- Landmark.get_x indexTip ;;
  ty <- Landmark.get_y thumbTip ;; iy <- Landmark.get_y indexTip ;;
  let pinchDist := sqrt ((tx - ix) ^ 2 + (ty - iy) ^ 2) in
  let isPinch := Rltb pinchDist 0.05 in
  detectedGesture <- recognise indexOpen middleOpen ringOpen pinkyOpen isPinch indexTip ;;
  Eff.call (setGestureStatus detectedGesture).

(** The part of [predictWebcam] that follows detection; the argument
    is [results.landmarks], one landmark list per detected hand. *)
Definition predictWebcam (results_landmarks : list (list Landmark.t)) : Eff.t unit :=
  match results_landmarks with
  | landmarks :: _ => handPresent landmarks
  | [] => Eff.call (setGestureStatus "IDLE")
  end.

(** The finger flags and the pinch flag of a frame, read with total
    access. *)
Definition indexOpen (f : list Landmark.t) : bool :=
  extended (Landmark.pt f 0) (Landmark.pt f 8) (Landmark.pt f 6).
Definition middleOpen (f : list Landmark.t) : bool :=
  extended (Landmark.pt f 0) (Landmark.pt f 12) (Landmark.pt f 10).
Definition ringOpen (f : list Landmark.t) : bool :=
  extended (Landmark.pt f 0) (Landmark.pt f 16) (Landmark.pt f 14).
Definition pinkyOpen (f : list Landmark.t) : bool :=
  extended (Landmark.pt f 0) (Landmark.pt f 20) (Landmark.pt f 18).
Definition isPinch (f : list Landmark.t) : bool :=
  Rltb (sqrt ((Landmark.x (Landmark.pt f 4) - Landmark.x (Landmark.pt f 8)) ^ 2
              + (Landmark.y (Landmark.pt f 4) - Landmark.y (Landmark.pt f 8)) ^ 2)) 0.05.

End HandTrackerWrist.

(** ** The gesture logic of [components/HandTracker.tsx]

    The version whose finger test compares the vertical coordinate of a
    fingertip with that of its PIP joint. *)

Module HandTracker.

Import Store.

Definition getDistance (p1 p2 : option Landmark.t) : Eff.t R :=
  x1 <- Landmark.get_x p1 ;; x2 <- Landmark.get_x p2 ;;
  y1 <- Landmark.get_y p1 ;; y2 <- Landmark.get_y p2 ;;
  Eff.ret (sqrt ((x1 - x2) ^ 2 + (y1 - y2) ^ 2)).

Definition PINCH_THRESHOLD : R := 0.05.

(** The union type declared for the local [detectedGesture]. *)
Definition detectedGesture_type : list string :=
  ["IDLE"; "POINT"; "PINCH"; "TWO"; "THREE"; "OPEN"].

(** The [if] / [else if] chain over the gesture flags. *)
Definition recognise (isThree isTwo isPointing isOpenHand : bool) (pinchDist : R)
    (indexTip : option Landmark.t) : Eff.t string :=
  if isThree then
    Eff.call (setFocusTarget "MOON") ;;;
    Eff.ret "THREE"
  else if isTwo then
    Eff.call (setFocusTarget "EARTH") ;;;
    Eff.ret "TWO"
  else if isPointing then
    Eff.call (setFocusTarget "SATURN") ;;;
    ix <- Landmark.get_x indexTip ;;
    let rotY := (ix - 0.5) * 4.0 in
    iy <- Landmark.get_y indexTip ;;
    let rotX := (iy - 0.5) * 4.0 in
    Eff.call (setSaturnRotation rotX rotY) ;;;
    Eff.ret "POINT"
  else if isOpenHand then
    Eff.call (increaseZoom 0.015) ;;;
    Eff.ret "OPEN"
  else if Rltb pinchDist PINCH_THRESHOLD then
    Eff.call (setFocusTarget "NONE") ;;;
    Eff.call (decreaseZoom 0.015) ;;;
    Eff.ret "PINCH"
  else
    Eff.ret "IDLE".

(** [a.y < b.y] on two landmarks that may be [undefined]. *)
Definition y_lt (a b : option Landmark.t) : Eff.t bool :=
  ay <- Landmark.get_y a ;; by_ <- Landmark.get_y b ;; Eff.ret (Rltb ay by_).

(** [a.y > b.y]. *)
Definition y_gt (a b : option Landmark.t) : Eff.t bool :=
  ay <- Landmark.get_y a ;; by_ <- Landmark.get_y b ;; Eff.ret (Rgtb ay by_).

Definition handPresent (landmarks : list Landmark.t) : Eff.t unit :=
  let thumbTip := Landmark.at_index landmarks 4 in
  let indexTip := Landmark.at_index landmarks 8 in
  let indexPip := Landmark.at_index landmarks 6 in
  let middleTip := Landmark.at_index landmarks 12 in
  let middlePip := Landmark.at_index landmarks 10 in
  let ringTip := Landmark.at_index landmarks 16 in
  let ringPip := Landmark.at_index landmarks 14 in
  let pinkyTip := Landmark.at_index landmarks 20 in
  let pinkyPip := Landmark.at_index landmarks 18 in
  pinchDist <- getDistance thumbTip indexTip ;;
  isIndexExtended <- y_lt indexTip indexPip ;;
  isMiddleExtended <- y_lt middleTip middlePip ;;
  isRingExtended <- y_lt ringTip ringPip ;;
  isPinkyExtended <- y_lt pinkyTip pinkyPip ;;
  isMiddleCurled <- y_gt middleTip middlePip ;;
  isRingCurled <- y_gt ringTip ringPip ;;
  isPinkyCurled <- y_gt pinkyTip pinkyPip ;;
  let isThree := isIndexExtended && isMiddleExtended && isRingExtended && isPinkyCurled in
  let isTwo := isIndexExtended && isMiddleExtended && isRingCurled && isPinkyCurled in
  let isPointing := isIndexExtended && isMiddleCurled && isRingCurled && isPinkyCurled in
  let isOpenHand := isIndexExtended && isMiddleExtended && isRingExtended && isPinkyExtended in
  detectedGesture <- recognise isThree isTwo isPointing isOpenHand pinchDist indexTip ;;
  Eff.call (setGestureStatus detectedGesture).

Definition predictWebcam (results_landmarks : list (list Landmark.t)) : Eff.t unit :=
  match results_landmarks with
  | landmarks :: _ => handPresent landmarks
  | [] => Eff.call (setGestureStatus "IDLE")
  end.

(** The finger flags of a frame, read with total access. *)
Definition isExtended (f : list Landmark.t) (tipIdx pipIdx : nat) : bool :=
  Rltb (Landmark.y (Landmark.pt f tipIdx)) (Landmark.y (Landmark.pt f pipIdx)).
Definition isCurled (f : list Landmark.t) (tipIdx pipIdx : nat) : bool :=
  Rgtb (Landmark.y (Landmark.pt f tipIdx)) (Landmark.y (Landmark.pt f pipIdx)).
Definition pinchDist (f : list Landmark.t) : R :=
  sqrt ((Landmark.x (Landmark.pt f 4) - Landmark.x (Landmark.pt f 8)) ^ 2
        + (Landmark.y (Landmark.pt f 4) - Landmark.y (Landmark.pt f 8)) ^ 2).

Definition isThree (f : list Landmark.t) : bool :=
  isExtended f 8 6 && isExtended f 12 10 && isExtended f 16 14 && isCurled f 20 18.
Definition isTwo (f : list Landmark.t) : bool :=
  isExtended f 8 6 && isExtended f 12 10 && isCurled f 16 14 && isCurled f 20 18.
Definition isPointing (f : list Landmark.t) : bool :=
  isExtended f 8 6 && isCurled f 12 10 && isCurled f 16 14 && isCurled f 20 18.
Definition isOpenHand (f : list Landmark.t) : bool :=
  isExtended f 8 6 && isExtended f 12 10 && isExtended f 16 14 && isExtended f 20 18.

End HandTracker.

(** ** The camera logic of [SolarSystem] *)

Module Vector3.

Record t := mk { x : R; y : R; z : R }.

Definition add (a b : t) : t := mk (x a + x b) (y a + y b) (z a + z b).

Definition sub (a b : t) : t := mk (x a - x b) (y a - y b) (z a - z b).

(** three.js [a.lerp(v, alpha)]: each coordinate moves by
    [(v - a) * alpha]. *)
Definition lerp (a v : t) (alpha : R) : t :=
  mk (x a + (x v - x a) * alpha) (y a + (y v - y a) * alpha) (z a + (z v - z a) * alpha).

Definition length (a : t) : R := sqrt (x a * x a + y a * y a + z a * z a).

Definition zero : t := mk 0 0 0.

End Vector3.

Module MathUtils.

(** three.js [MathUtils.lerp(x, y, t)]. *)
Definition lerp (x y t : R) : R := (1 - t) * x + t * y.

End MathUtils.

Module SolarSystem.

(** What the callback reads and writes of [state.camera]: its
    position, and the image of [(0, 0, -1)] under its quaternion, the
    direction it looks in. *)
Record Camera := mkCamera {
  position : Vector3.t;
  forward : Vector3.t
}.

(** [new Vector3(0,0,-1).applyQuaternion(camera.quaternion).add(camera.position)] *)
Definition currentLookAt (camera : Camera) : Vector3.t :=
  Vector3.add (forward camera) (position camera).

(** three.js [camera.lookAt(target)]: the camera turns to look from
    its position towards [target]; when the two coincide it looks
    along [(0, 0, -1)].  The small nudge three.js gives a direction
    parallel to the camera's up vector is left out; no statement below
    reads the direction a call of [lookAt] leaves. *)
Definition lookAt (camera : Camera) (target : Vector3.t) : Camera :=
  let d := Vector3.sub target (position camera) in
  let len := Vector3.length d in
  {| position := position camera;
     forward := if Req_dec_T len 0 then Vector3.mk 0 0 (-1)
                else Vector3.mk (Vector3.x d / len) (Vector3.y d / len) (Vector3.z d / len) |}.

(** One run of the callback: the camera it leaves and the point it
    handed to [camera.lookAt]. *)
Record Tick := mkTick {
  camera : Camera;
  lookedAt : Vector3.t
}.

Definition moveAndLook (cam : Camera) (targetPos lookAtPos : Vector3.t) : Tick :=
  let cam1 := {| position := Vector3.lerp (position cam) targetPos 0.05;
                 forward := forward cam |} in
  {| camera := lookAt cam1 lookAtPos; lookedAt := lookAtPos |}.

(** The [useFrame] callback of [SolarSystem]; [time] is
    [state.clock.getElapsedTime()], [focusTarget] and [zoomLevel] are
    read from the store. *)
Definition useFrame (focusTarget : string) (zoomLevel : R) (time : R) (cam : Camera) : Tick :=
  if String.eqb focusTarget "SATURN" then
    let angle := time * 0.4 * 0.2 + 5 in
    let dist := 42 in
    let saturnX := cos angle * dist in
    let saturnZ := - sin angle * dist in
    let targetPos := Vector3.mk (saturnX + 5) 4 (saturnZ + 9) in
    let lookAtPos := Vector3.mk saturnX 0 saturnZ in
    moveAndLook cam targetPos lookAtPos
  else if String.eqb focusTarget "EARTH" then
    let angle := time * 1.0 * 0.2 + 2 in
    let dist := 18 in
    let earthX := cos angle * dist in
    let earthZ := - sin angle * dist in
    let targetPos := Vector3.mk (earthX + 2) 1 (earthZ + 4) in
    let lookAtPos := Vector3.mk earthX 0 earthZ in
    moveAndLook cam targetPos lookAtPos
  else if String.eqb focusTarget "MOON" then
    let earthAngle := time * 1.0 * 0.2 + 2 in
    let earthDist := 18 in
    let earthX := cos earthAngle * earthDist in
    let earthZ := - sin earthAngle * earthDist in
    let moonAngle := time * 0.5 in
    let moonDist := 3.5 in
    let moonX := cos moonAngle * moonDist in
    let moonZ := - sin moonAngle * moonDist in
    let absMoonX := earthX + moonX in
    let absMoonZ := earthZ + moonZ in
    let targetPos := Vector3.mk (absMoonX + 1) 0.5 (absMoonZ + 2) in
    let lookAtPos := Vector3.mk absMoonX 0 absMoonZ in
    moveAndLook cam targetPos lookAtPos
  else
    let zPos :=
      if Rltb zoomLevel 0 then 60 + (Rabs zoomLevel / 0.5) * 30
      else MathUtils.lerp 60 4 zoomLevel in
    let targetPos := Vector3.mk 0 20 zPos in
    let cam1 := {| position := Vector3.lerp (position cam) targetPos 0.05;
                   forward := forward cam |} in
    let targetLookAt := Vector3.mk 0 0 0 in
    let lerpedLookAt := Vector3.lerp (currentLookAt cam1) targetLookAt 0.05 in
    {| camera := lookAt cam1 lerpedLookAt; lookedAt := lerpedLookAt |}.

End SolarSystem.

(** ** Statements taken from the specification, to compare with the code *)

Module Spec.

Import Store.

(** Rules tried in order; the first whose condition holds gives the
    label, and [IDLE] is the fallback. *)
Fixpoint first_match (rules : list (string * bool)) : string :=
  match rules with
  | [] => "IDLE"
  | (label, true) :: _ => label
  | (_, false) :: rest => first_match rest
  end.

(** The store updates prescribed for a label; [tip] is the index
    fingertip, and the pointing direction is its offset from the frame
    centre [(0.5, 0.5)] times the gain [4.0]. *)
Definition prescribed (label : string) (tip : Landmark.t) (s : AppState) : AppState :=
  if String.eqb label "THREE" then
    mkAppState (zoomLevel s) label "MOON" (saturnRotation s)
  else if String.eqb label "TWO" then
    mkAppState (zoomLevel s) label "EARTH" (saturnRotation s)
  else if String.eqb label "POINT" then
    mkAppState (zoomLevel s) label "SATURN"
      (mkRotation ((Landmark.y tip - 0.5) * 4.0) ((Landmark.x tip - 0.5) * 4.0))
  else if String.eqb label "OPEN" then
    mkAppState (Rmax MIN_ZOOM (Rmin MAX_ZOOM (zoomLevel s + 0.015))) label
      (focusTarget s) (saturnRotation s)
  else if String.eqb label "PINCH" then
    mkAppState (Rmax MIN_ZOOM (Rmin MAX_ZOOM (zoomLevel s - 0.015))) label
      "NONE" (saturnRotation s)
  else
    mkAppState (zoomLevel s) label (focusTarget s) (saturnRotation s).

Definition labels : list string := ["IDLE"; "POINT"; "PINCH"; "TWO"; "THREE"; "OPEN"].

Definition focus_targets : list string := ["NONE"; "SATURN"; "EARTH"; "MOON"].

(** The rule list of the classifier, first rule first, with the finger
    conditions as the wrist-distance version tests them: a finger is
    extended or it is not. *)
Definition wrist_rules (f : list Landmark.t) : list (string * bool) :=
  let index := HandTrackerWrist.indexOpen f in
  let middle := HandTrackerWrist.middleOpen f in
  let ring := HandTrackerWrist.ringOpen f in
  let pinky := HandTrackerWrist.pinkyOpen f in
  [ ("THREE", index && middle && ring && negb pinky);
    ("TWO", index && middle && negb ring && negb pinky);
    ("POINT", index && negb middle && negb ring && negb pinky);
    ("OPEN", index && middle && ring && pinky);
    ("PINCH", HandTrackerWrist.isPinch f) ].

(** The same list with the conditions as [components/HandTracker.tsx]
    tests them: a finger is extended when its tip is above its PIP
    joint and curled when its tip is below it. *)
Definition vertical_rules (f : list Landmark.t) : list (string * bool) :=
  let extended := HandTracker.isExtended f in
  let curled := HandTracker.isCurled f in
  [ ("THREE", extended 8 6 && extended 12 10 && extended 16 14 && curled 20 18)%nat;
    ("TWO", extended 8 6 && extended 12 10 && curled 16 14 && curled 20 18)%nat;
    ("POINT", extended 8 6 && curled 12 10 && curled 16 14 && curled 20 18)%nat;
    ("OPEN", extended 8 6 && extended 12 10 && extended 16 14 && extended 20 18)%nat;
    ("PINCH", Rltb (HandTracker.pinchDist f) 0.05) ].

(** [actual += (target - actual) * 0.05], coordinate by coordinate. *)
Definition smooth (actual target : Vector3.t) : Vector3.t :=
  Vector3.add actual
    (Vector3.mk ((Vector3.x target - Vector3.x actual) * 0.05)
                ((Vector3.y target - Vector3.y actual) * 0.05)
                ((Vector3.z target - Vector3.z actual) * 0.05)).

(** A point of the circle of the given radius in the horizontal plane. *)
Definition orbit (radius angle : R) : Vector3.t :=
  Vector3.mk (cos angle * radius) 0 (- sin angle * radius).

End Spec.

(** ** Sample inputs *)

Module Samples.

(** A frame of 21 landmarks from a function of the index. *)
Definition frame_of (g : nat -> Landmark.t) : list Landmark.t := map g (seq 0 21).

(** An upright hand on the vertical line [x = 0.5]: wrist at the
    bottom, every PIP joint at height [0.5], index fingertip raised to
    [0.3] with the thumb tip on it, and the middle, ring and little
    fingertips at the given heights. *)
Definition hand (middle ring pinky : R) (i : nat) : Landmark.t :=
  match i with
  | 0%nat => Landmark.mk 0.5 0.9 0
  | 4%nat | 8%nat => Landmark.mk 0.5 0.3 0
  | 6%nat | 10%nat | 14%nat | 18%nat => Landmark.mk 0.5 0.5 0
  | 12%nat => Landmark.mk 0.5 middle 0
  | 16%nat => Landmark.mk 0.5 ring 0
  | 20%nat => Landmark.mk 0.5 pinky 0
  | _ => Landmark.mk 0.5 0.7 0
  end.

(** Index raised, the other three fingertips below their PIP joints. *)
Definition pointing_pinched : list Landmark.t := frame_of (hand 0.6 0.6 0.6).

(** Index raised, the other three fingertips level with their PIP
    joints. *)
Definition pointing_level : list Landmark.t := frame_of (hand 0.5 0.5 0.5).

(** Index, middle and ring raised, little finger down. *)
Definition three_fingers : list Landmark.t := frame_of (hand 0.3 0.3 0.6).

(** The first 20 landmarks of a frame: the last one is missing. *)
Definition truncated : list Landmark.t := firstn 20 pointing_pinched.

(** A store in which an earlier frame left the label [POINT]. *)
Definition after_point : Store.AppState := Store.setGestureStatus "POINT" Store.useStore.

(** A camera at the position [App] gives its camera, [[0, 20, 60]],
    looking along [(0, 0, -1)].  The direction is a sample: the
    callback runs from whatever direction earlier frames left. *)
Definition initial_camera : SolarSystem.Camera :=
  SolarSystem.mkCamera (Vector3.mk 0 20 60) (Vector3.mk 0 0 (-1)).

End Samples.

(** ** The whole animation-frame callback of the trackers

    [predictWebcam] as the browser runs it: the guards before
    detection, the gesture logic, and the request for the next frame
    that ends it.  Both versions share this frame; [body] is the
    gesture logic of the version at hand. *)

Module WebcamLoop.

Import Store.

(** What one call finds: whether the landmarker is loaded, the size of
    the video element if it is mounted, whether the canvas is mounted,
    and what detection returns in [results.landmarks]. *)
Record Invocation := mkInvocation {
  handLandmarker : bool;
  videoRef_current : option (nat * nat);
  canvasRef_current : bool;
  results_landmarks : list (list Landmark.t)
}.

(** What one call leaves: how it ended, the store, and whether it
    called [requestAnimationFrame(predictWebcam)]. *)
Record Run := mkRun {
  outcome : Eff.Outcome unit;
  store : AppState;
  requested : bool
}.

Definition predictWebcam (body : list (list Landmark.t) -> Eff.t unit)
    (i : Invocation) (s : AppState) : Run :=
  match handLandmarker i, videoRef_current i, canvasRef_current i with
  | true, Some (videoWidth, videoHeight), true =>
      if Nat.eqb videoWidth 0 || Nat.eqb videoHeight 0 then
        {| outcome := Eff.Returned tt; store := s; requested := true |}
      else
        match body (results_landmarks i) s with
        | (Eff.Returned _, s') =>
            {| outcome := Eff.Returned tt; store := s'; requested := true |}
        | (Eff.Threw_TypeError, s') =>
            {| outcome := Eff.Threw_TypeError; store := s'; requested := false |}
        end
  | _, _, _ => {| outcome := Eff.Returned tt; store := s; requested := false |}
  end.

(** The browser calls the callback once per animation frame for as
    long as the previous call requested one. *)
Fixpoint frames (body : list (list Landmark.t) -> Eff.t unit)
    (calls : list Invocation) (s : AppState) : AppState :=
  match calls with
  | [] => s
  | i :: rest =>
      let r := predictWebcam body i s in
      if requested r then frames body rest (store r) else store r
  end.

(** A call that finds everything mounted and a video with a size. *)
Definition live (i : Invocation) : Prop :=
  handLandmarker i = true /\ canvasRef_current i = true
  /\ exists w h : nat, videoRef_current i = Some (S w, S h).

(** A live call whose first hand lacks a landmark. *)
Definition missing_landmark (i : Invocation) : Prop :=
  live i /\ exists hand rest,
    results_landmarks i = hand :: rest /\ (List.length hand < 21)%nat.

(** A call that finds a video without a size yet. *)
Definition unsized (i : Invocation) : Prop :=
  handLandmarker i = true /\ canvasRef_current i = true
  /\ exists w h : nat, videoRef_current i = Some (w, h) /\ (w = 0%nat \/ h = 0%nat).

(** The store holds a level in range, one of the six labels and one of
    the four targets. *)
Definition well_formed (s : AppState) : Prop :=
  zoom_in_range (zoomLevel s)
  /\ In (gestureStatus s) Spec.labels
  /\ In (focusTarget s) Spec.focus_targets.

(** What the loop facts need of a gesture logic: on every detection
    result it either returns, leaving the store prescribed for one of
    the six labels, or throws, leaving the store as it was. *)
Definition body_ok (body : list (list Landmark.t) -> Eff.t unit) : Prop :=
  forall results s,
    (exists label tip, In label Spec.labels
        /\ body results s = (Eff.Returned tt, Spec.prescribed label tip s))
    \/ body results s = (Eff.Threw_TypeError, s).

(** A call that finds the landmarker, the video or the canvas gone. *)
Definition unmounted (i : Invocation) : Prop :=
  handLandmarker i = false \/ videoRef_current i = None \/ canvasRef_current i = false.

End WebcamLoop.

(** ** The overlay of [App] *)

Module UIOverlay.

Import Store.

(** [statusText], assigned by a run of [if] statements: the last one
    whose condition holds decides. *)
Definition statusText (zoomLevel : R) (gestureStatus focusTarget : string) : string :=
  let statusText := "Ready" in
  let statusText :=
    if String.eqb gestureStatus "POINT" then "Controlling Saturn" else statusText in
  let statusText :=
    if String.eqb gestureStatus "TWO" then "Visiting Earth" else statusText in
  let statusText :=
    if String.eqb gestureStatus "PINCH" then "Zooming Out..." else statusText in
  let statusText :=
    if String.eqb gestureStatus "OPEN" then "Zooming In..." else statusText in
  let statusText :=
    if String.eqb gestureStatus "IDLE" then
      let statusText :=
        if String.eqb focusTarget "SATURN" then "Locked on Saturn" else statusText in
      if String.eqb focusTarget "EARTH" then "Locked on Earth" else statusText
    else statusText in
  if Rgtb zoomLevel 0.85 && String.eqb focusTarget "NONE" then "⚠️ SCATTERING ⚠️"
  else statusText.

Definition range : R := MAX_ZOOM - MIN_ZOOM.

Definition normalizedValue (zoomLevel : R) : R := zoomLevel - MIN_ZOOM.

(** The width of the zoom bar, in percent. *)
Definition barPercentage (zoomLevel : R) : R := (normalizedValue zoomLevel / range) * 100.

(** The place of the zero mark on the bar, in percent. *)
Definition zeroMark : R := (- MIN_ZOOM / range) * 100.

End UIOverlay.

(** ** Moving a hand in the image *)

Module Transform.


(** The landmark seen in the image turned upside down. *)
Definition upsideDown (p : Landmark.t) : Landmark.t :=
  Landmark.mk (Landmark.x p) (1 - Landmark.y p) (Landmark.z p).

End Transform.

(** ** The scene components that follow the store and the clock *)

Module Scene.

Import Store.

(** three.js [v.multiplyScalar(s)]. *)
Definition multiplyScalar (v : Vector3.t) (s : R) : Vector3.t :=
  Vector3.mk (Vector3.x v * s) (Vector3.y v * s) (Vector3.z v * s).

(** three.js [v.normalize()], which is [v.divideScalar(v.length() || 1)]:
    the zero vector is divided by 1. *)
Definition normalize (v : Vector3.t) : Vector3.t :=
  let len := Vector3.length v in
  multiplyScalar v (1 / (if Req_dec_T len 0 then 1 else len)).

(** three.js [v.setLength(l)], which is [v.normalize().multiplyScalar(l)]. *)
Definition setLength (v : Vector3.t) (l : R) : Vector3.t := multiplyScalar (normalize v) l.

(** A turn by [theta] about the vertical axis, as [rotation.y = theta]
    turns a group. *)
Definition rotateY (theta : R) (v : Vector3.t) : Vector3.t :=
  Vector3.mk (cos theta * Vector3.x v + sin theta * Vector3.z v)
             (Vector3.y v)
             (- sin theta * Vector3.x v + cos theta * Vector3.z v).

(** The numeric props of [Planet]. *)
Record PlanetProps := mkPlanetProps {
  distance : R;
  speed : R;
  rotationOffset : R
}.

(** What [Planet]'s callback reads and writes of its two groups: the
    turn and the position of the outer group ([groupRef]) and the two
    manual turns of the body group ([planetBodyRef]). *)
Record Planet := mkPlanet {
  group_rotation_y : R;
  group_position : Vector3.t;
  body_rotation_x : R;
  body_rotation_z : R
}.

(** The groups as React mounts them: nothing turned, the outer group
    at the origin. *)
Definition mounted : Planet := mkPlanet 0 Vector3.zero 0 0.

(** The [useFrame] callback of [Planet]. *)
Definition Planet_useFrame (props : PlanetProps) (manualRotation : option Rotation)
    (zoomLevel time : R) (p : Planet) : Planet :=
  {| group_rotation_y := time * speed props * 0.2 + rotationOffset props;
     group_position :=
       if Rgtb zoomLevel 1.0 then
         let expansion := (zoomLevel - 1.0) * 20.0 in
         setLength (group_position p) (distance props + expansion)
       else setLength (group_position p) (distance props);
     body_rotation_x :=
       match manualRotation with
       | Some m => MathUtils.lerp (body_rotation_x p) (rot_x m) 0.1
       | None => body_rotation_x p
       end;
     body_rotation_z :=
       match manualRotation with
       | Some m => MathUtils.lerp (body_rotation_z p) (rot_y m) 0.1
       | None => body_rotation_z p
       end |}.

(** Where the body group, placed at [[distance, 0, 0]] inside the outer
    group, is in the world: the outer group's position plus its turn
    applied to the body's place. *)
Definition bodyWorldPosition (props : PlanetProps) (p : Planet) : Vector3.t :=
  Vector3.add (group_position p)
    (rotateY (group_rotation_y p) (Vector3.mk (distance props) 0 0)).

(** The planets [SolarSystem] gives to the camera logic. *)
Definition earth : PlanetProps := mkPlanetProps 18 1.0 2.
Definition saturn : PlanetProps := mkPlanetProps 42 0.4 5.


(** The turns [RealisticMoon]'s callback sets: the orbit group and the
    Moon's own spin. *)
Record Moon := mkMoon {
  orbit_rotation_y : R;
  moon_rotation_y : R
}.

Definition RealisticMoon_useFrame (time : R) (m : Moon) : Moon :=
  {| orbit_rotation_y := time * 0.5; moon_rotation_y := time * 0.2 |}.

(** Where the Moon, placed at [[distance, 0, 0]] inside its orbit group
    inside the Earth's body group, is in the world.  The Earth gets no
    [manualRotation], so its body group is never turned. *)
Definition moonWorldPosition (moonDistance : R) (e : Planet) (m : Moon) : Vector3.t :=
  Vector3.add (group_position e)
    (rotateY (group_rotation_y e)
       (Vector3.add (Vector3.mk (distance earth) 0 0)
          (rotateY (orbit_rotation_y m) (Vector3.mk moonDistance 0 0)))).



(** Runs of [Planet]'s callback, one for each triple of the
    [manualRotation] prop, the zoom level and the time. *)
Definition Planet_frames (props : PlanetProps) (inputs : list (option Rotation * R * R))
    (p : Planet) : Planet :=
  fold_left
    (fun st i => Planet_useFrame props (fst (fst i)) (snd (fst i)) (snd i) st)
    inputs p.


(** [n] runs of a callback that reads one zoom level per run. *)
Definition runs {A : Type} (tick : R -> A -> A) (zoomLevels : list R) (a : A) : A :=
  fold_left (fun st z => tick z st) zoomLevels a.

End Scene.

(** ** The particle spheres *)

Module ParticleSphere.

(** The [useFrame] callback on the [uScatter] uniform. *)
Definition useFrame (zoomLevel : R) (uScatter : R) : R :=
  MathUtils.lerp uScatter zoomLevel 0.1.

(** The vertex shader's [scatterEffect]. *)
Definition scatterEffect (uScatter : R) : R := Rmax 0.0 (uScatter - 0.8) * 5.0.

(** The length of the shader's [movement] for a unit [aScatterDir]. *)
Definition movement (uScatter : R) : R := scatterEffect uScatter * 15.0.

(** The factor of [vAlpha] that fades scattered particles. *)
Definition fade (uScatter : R) : R := 1.0 - Rmin 1.0 (scatterEffect uScatter * 0.5).

End ParticleSphere.

(** ** Runs of the camera callback *)

Module CameraRun.

(** The camera after the callback ran once for each pair of a zoom
    level and a time, the focus target staying the same. *)
Definition ticks (focusTarget : string) (inputs : list (R * R))
    (cam : SolarSystem.Camera) : SolarSystem.Camera :=
  fold_left
    (fun c zt => SolarSystem.camera (SolarSystem.useFrame focusTarget (fst zt) (snd zt) c))
    inputs cam.

End CameraRun.

(** ** Sample animation frames *)

Module LoopSamples.

(** A call in a running page whose detection returns the given hands. *)
Definition seeing (hands : list (list Landmark.t)) : WebcamLoop.Invocation :=
  WebcamLoop.mkInvocation true (Some (320, 240)%nat) true hands.

(** An open hand: all four fingertips raised. *)
Definition open_hand : list Landmark.t := Samples.frame_of (Samples.hand 0.3 0.3 0.3).

(** Index and middle fingertips raised, the other two down. *)
Definition two_fingers : list Landmark.t := Samples.frame_of (Samples.hand 0.3 0.6 0.6).

(** A closed hand: every landmark but the wrist at the same point, so
    no fingertip is further out than its PIP joint and the thumb tip is
    on the index tip. *)
Definition fist_landmark (i : nat) : Landmark.t :=
  match i with
  | 0%nat => Landmark.mk 0.5 0.9 0
  | _ => Landmark.mk 0.5 0.5 0
  end.

Definition fist : list Landmark.t := Samples.frame_of fist_landmark.

(** A call made before the video has a size. *)
Definition warming_up : WebcamLoop.Invocation :=
  WebcamLoop.mkInvocation true (Some (0, 0)%nat) true [].

End LoopSamples.

(** * Theorems *)

(** ** Comparisons *)

Lemma Rltb_true (a b : R) : Rltb a b = true <-> a < b.
Proof. unfold Rltb; destruct (Rlt_dec a b); split; intros; try discriminate; tauto. Qed.

Lemma Rltb_false (a b : R) : Rltb a b = false <-> b <= a.
Proof.
  unfold Rltb; destruct (Rlt_dec a b); split; intros; try discriminate; try reflexivity; lra.
Qed.

Lemma Rgtb_true (a b : R) : Rgtb a b = true <-> a > b.
Proof. unfold Rgtb; rewrite Rltb_true; lra. Qed.

Lemma Rgtb_false (a b : R) : Rgtb a b = false <-> a <= b.
Proof. unfold Rgtb; rewrite Rltb_false; lra. Qed.

(** ** The store *)

Section StoreFacts.

Import Store.

Lemma clamp_in_range (v : R) : zoom_in_range (Rmax MIN_ZOOM (Rmin MAX_ZOOM v)).
Proof.
  unfold zoom_in_range, MIN_ZOOM, MAX_ZOOM, Rmax, Rmin.
  repeat destruct (Rle_dec _ _); lra.
Qed.

End StoreFacts.

Section StoreTheorems.

Import Store.

(** C9.  Each of the six store operations is one call of [set] with an
    object that carries exactly one field; that field takes the value
    the operation computes and the other three fields keep theirs. *)
Theorem store_operation_writes_one_field (op : Operation) (s : AppState) :
  (exists partial : PartialState,
      perform op s = set partial s /\ fields_of partial = [written_field op])
  /\ (forall f : Field, f <> written_field op -> same_field f s (perform op s))
  /\ perform op s =
       match op with
       | OpSetZoomLevel level =>
           mkAppState (Rmax MIN_ZOOM (Rmin MAX_ZOOM level))
             (gestureStatus s) (focusTarget s) (saturnRotation s)
       | OpIncreaseZoom amount =>
           mkAppState (Rmax MIN_ZOOM (Rmin MAX_ZOOM (zoomLevel s + amount)))
             (gestureStatus s) (focusTarget s) (saturnRotation s)
       | OpDecreaseZoom amount =>
           mkAppState (Rmax MIN_ZOOM (Rmin MAX_ZOOM (zoomLevel s - amount)))
             (gestureStatus s) (focusTarget s) (saturnRotation s)
       | OpSetGestureStatus status =>
           mkAppState (zoomLevel s) status (focusTarget s) (saturnRotation s)
       | OpSetFocusTarget target =>
           mkAppState (zoomLevel s) (gestureStatus s) target (saturnRotation s)
       | OpSetSaturnRotation x y =>
           mkAppState (zoomLevel s) (gestureStatus s) (focusTarget s) (mkRotation x y)
       end.
Proof.
  split; [|split].
  - destruct op; eexists; split; try reflexivity;
      unfold perform, increaseZoom, decreaseZoom, set_with; reflexivity.
  - intros f Hf; destruct op, f; cbn in *; congruence.
  - destruct op; reflexivity.
Qed.

(** C10.  For every state and every amount [a], [decreaseZoom a] and
    [increaseZoom (- a)] give the same state: the zoom level plus
    [- a], clamped, and the other fields as they were. *)
Theorem decreaseZoom_is_increaseZoom_opp (a : R) (s : AppState) :
  decreaseZoom a s = increaseZoom (- a) s
  /\ decreaseZoom a s =
       mkAppState (Rmax MIN_ZOOM (Rmin MAX_ZOOM (zoomLevel s - a)))
         (gestureStatus s) (focusTarget s) (saturnRotation s).
Proof.
  split; [|reflexivity].
  unfold decreaseZoom, increaseZoom, set_with, set; cbn.
  replace (zoomLevel s + - a) with (zoomLevel s - a) by lra.
  reflexivity.
Qed.

End StoreTheorems.

(** ** The zoom level on binary64 numbers *)

Section Binary64Facts.

Import Binary64.
















(** Sixty calls of [increaseZoom(0.015)] from 0.2 on doubles: every
    level is in range, the levels never go down, the 54th call reaches
    exactly 1.0 and the level stays there. *)
Example binary64_sixty_increases :
  let l := levels 60 (increaseZoom step) initial_zoomLevel in
  forallb in_range l = true
  /\ nondecreasing l = true
  /\ nth 53 l PrimFloat.nan <> MAX_ZOOM
  /\ skipn 54 l = repeat MAX_ZOOM 7.
Proof.
  cbv zeta. split; [|split; [|split]]; try (vm_compute; reflexivity).
  vm_compute. intros H.
  apply (f_equal (fun x => PrimFloat.ltb x MAX_ZOOM)) in H.
  vm_compute in H. discriminate H.
Qed.

(** On doubles too, [decreaseZoom(a)] and [increaseZoom(-a)] agree on
    the step the program uses, and repeated decreases stop at -0.5. *)
Example binary64_decreases :
  decreaseZoom step initial_zoomLevel = increaseZoom (PrimFloat.opp step) initial_zoomLevel
  /\ forallb in_range (levels 60 (decreaseZoom step) initial_zoomLevel) = true
  /\ nth 60 (levels 60 (decreaseZoom step) initial_zoomLevel) PrimFloat.nan = MIN_ZOOM.
Proof. repeat split; vm_compute; reflexivity. Qed.

End Binary64Facts.

(** ** The gesture logic *)

Section TrackerFacts.

Import Store.

Lemma at_index_long (f : list Landmark.t) (i : nat) :
  (i < List.length f)%nat -> Landmark.at_index f i = Some (Landmark.pt f i).
Proof. intros Hi; unfold Landmark.at_index, Landmark.pt; apply nth_error_nth'; exact Hi. Qed.

Lemma at_index_short (f : list Landmark.t) (i : nat) :
  (List.length f <= i)%nat -> Landmark.at_index f i = None.
Proof. intros Hi; unfold Landmark.at_index; apply nth_error_None; exact Hi. Qed.

(** Deciding a comparison of two given reals. *)
Lemma sqrt_lt_threshold (v c : R) : 0 <= v -> 0 < c -> v < c * c -> sqrt v < c.
Proof.
  intros Hv Hc Hlt. rewrite <- (sqrt_square c) by lra.
  apply sqrt_lt_1_alt; lra.
Qed.

Lemma sqrt_ge_threshold (v c : R) : 0 <= c -> c * c <= v -> c <= sqrt v.
Proof.
  intros Hc Hle. rewrite <- (sqrt_square c) at 1 by lra.
  apply sqrt_le_1_alt; lra.
Qed.

(** The wrist-distance version on a frame of at least 21 landmarks. *)
Lemma wrist_isExtended_long (f : list Landmark.t) (t p : nat) (s : AppState) :
  (21 <= List.length f)%nat -> (t < 21)%nat -> (p < 21)%nat ->
  HandTrackerWrist.isExtended f t p s
  = (Eff.Returned (HandTrackerWrist.extended (Landmark.pt f 0) (Landmark.pt f t) (Landmark.pt f p)), s).
Proof.
  intros Hf Ht Hp. unfold HandTrackerWrist.isExtended.
  rewrite !at_index_long by lia. reflexivity.
Qed.

Lemma wrist_handPresent_long (f : list Landmark.t) (s : AppState) :
  (21 <= List.length f)%nat ->
  HandTrackerWrist.handPresent f s
  = Eff.bind
      (HandTrackerWrist.recognise (HandTrackerWrist.indexOpen f) (HandTrackerWrist.middleOpen f)
         (HandTrackerWrist.ringOpen f) (HandTrackerWrist.pinkyOpen f) (HandTrackerWrist.isPinch f)
         (Some (Landmark.pt f 8)))
      (fun detectedGesture => Eff.call (setGestureStatus detectedGesture)) s.
Proof.
  intros Hf. unfold HandTrackerWrist.handPresent.
  unfold Eff.bind at 1. rewrite wrist_isExtended_long by lia.
  unfold Eff.bind at 1. rewrite wrist_isExtended_long by lia.
  unfold Eff.bind at 1. rewrite wrist_isExtended_long by lia.
  unfold Eff.bind at 1. rewrite wrist_isExtended_long by lia.
  rewrite !at_index_long by lia. reflexivity.
Qed.

Lemma wrist_recognise_spec (io mo ro po pin : bool) (tip : Landmark.t) (s : AppState) :
  Eff.bind (HandTrackerWrist.recognise io mo ro po pin (Some tip))
    (fun detectedGesture => Eff.call (setGestureStatus detectedGesture)) s
  = (Eff.Returned tt,
     Spec.prescribed
       (Spec.first_match
          [ ("THREE", io && mo && ro && negb po);
            ("TWO", io && mo && negb ro && negb po);
            ("POINT", io && negb mo && negb ro && negb po);
            ("OPEN", io && mo && ro && po);
            ("PINCH", pin) ])
       tip s).
Proof. destruct io, mo, ro, po, pin; reflexivity. Qed.

Lemma wrist_predictWebcam_long (f : list Landmark.t) (s : AppState) :
  (21 <= List.length f)%nat ->
  HandTrackerWrist.predictWebcam [f] s
  = (Eff.Returned tt, Spec.prescribed (Spec.first_match (Spec.wrist_rules f)) (Landmark.pt f 8) s).
Proof.
  intros Hf. unfold HandTrackerWrist.predictWebcam.
  rewrite wrist_handPresent_long by exact Hf. apply wrist_recognise_spec.
Qed.

(** The version of [components/HandTracker.tsx] on a frame of at least
    21 landmarks. *)
Lemma y_lt_long (f : list Landmark.t) (i j : nat) (s : AppState) :
  (i < List.length f)%nat -> (j < List.length f)%nat ->
  HandTracker.y_lt (Landmark.at_index f i) (Landmark.at_index f j) s
  = (Eff.Returned (HandTracker.isExtended f i j), s).
Proof. intros Hi Hj; rewrite !at_index_long by assumption; reflexivity. Qed.

Lemma y_gt_long (f : list Landmark.t) (i j : nat) (s : AppState) :
  (i < List.length f)%nat -> (j < List.length f)%nat ->
  HandTracker.y_gt (Landmark.at_index f i) (Landmark.at_index f j) s
  = (Eff.Returned (HandTracker.isCurled f i j), s).
Proof. intros Hi Hj; rewrite !at_index_long by assumption; reflexivity. Qed.

Lemma getDistance_long (f : list Landmark.t) (s : AppState) :
  (21 <= List.length f)%nat ->
  HandTracker.getDistance (Landmark.at_index f 4) (Landmark.at_index f 8) s
  = (Eff.Returned (HandTracker.pinchDist f), s).
Proof. intros Hf; rewrite !at_index_long by lia; reflexivity. Qed.

Lemma handPresent_long (f : list Landmark.t) (s : AppState) :
  (21 <= List.length f)%nat ->
  HandTracker.handPresent f s
  = Eff.bind
      (HandTracker.recognise (HandTracker.isThree f) (HandTracker.isTwo f)
         (HandTracker.isPointing f) (HandTracker.isOpenHand f) (HandTracker.pinchDist f)
         (Some (Landmark.pt f 8)))
      (fun detectedGesture => Eff.call (setGestureStatus detectedGesture)) s.
Proof.
  intros Hf. unfold HandTracker.handPresent.
  unfold Eff.bind at 1. rewrite getDistance_long by exact Hf.
  do 4 (unfold Eff.bind at 1; rewrite y_lt_long by lia).
  do 3 (unfold Eff.bind at 1; rewrite y_gt_long by lia).
  rewrite (at_index_long f 8) by lia. reflexivity.
Qed.

Lemma recognise_spec (three two pointing open : bool) (d : R) (tip : Landmark.t) (s : AppState) :
  Eff.bind (HandTracker.recognise three two pointing open d (Some tip))
    (fun detectedGesture => Eff.call (setGestureStatus detectedGesture)) s
  = (Eff.Returned tt,
     Spec.prescribed
       (Spec.first_match
          [ ("THREE", three); ("TWO", two); ("POINT", pointing); ("OPEN", open);
            ("PINCH", Rltb d 0.05) ])
       tip s).
Proof.
  unfold HandTracker.recognise, HandTracker.PINCH_THRESHOLD.
  destruct three, two, pointing, open, (Rltb d 0.05); reflexivity.
Qed.

Lemma predictWebcam_long (f : list Landmark.t) (s : AppState) :
  (21 <= List.length f)%nat ->
  HandTracker.predictWebcam [f] s
  = (Eff.Returned tt, Spec.prescribed (Spec.first_match (Spec.vertical_rules f)) (Landmark.pt f 8) s).
Proof.
  intros Hf. unfold HandTracker.predictWebcam.
  rewrite handPresent_long by exact Hf. apply recognise_spec.
Qed.

(** A fingertip below its PIP joint is not above it. *)
Lemma curled_not_extended (f : list Landmark.t) (tipIdx pipIdx : nat) :
  HandTracker.isCurled f tipIdx pipIdx = true -> HandTracker.isExtended f tipIdx pipIdx = false.
Proof.
  unfold HandTracker.isCurled, HandTracker.isExtended.
  rewrite Rgtb_true, Rltb_false. lra.
Qed.

Lemma first_match_label (c1 c2 c3 c4 c5 : bool) :
  In (Spec.first_match
        [("THREE", c1); ("TWO", c2); ("POINT", c3); ("OPEN", c4); ("PINCH", c5)])
     Spec.labels.
Proof. destruct c1, c2, c3, c4, c5; cbn; tauto. Qed.

Lemma prescribed_gestureStatus (label : string) (tip : Landmark.t) (s : AppState) :
  gestureStatus (Spec.prescribed label tip s) = label.
Proof.
  unfold Spec.prescribed.
  repeat match goal with |- context [if ?b then _ else _] => destruct b end; reflexivity.
Qed.

End TrackerFacts.

(** Evaluation of the flags of the sample frames. *)

Ltac unfold_sample :=
  cbv [Spec.wrist_rules Spec.vertical_rules
       HandTracker.isExtended HandTracker.isCurled HandTracker.pinchDist
       HandTracker.isThree HandTracker.isTwo HandTracker.isPointing HandTracker.isOpenHand
       HandTrackerWrist.indexOpen HandTrackerWrist.middleOpen HandTrackerWrist.ringOpen
       HandTrackerWrist.pinkyOpen HandTrackerWrist.isPinch HandTrackerWrist.extended
       Samples.pointing_pinched Samples.pointing_level Samples.three_fingers
       Samples.frame_of Samples.hand
       Landmark.pt Landmark.x Landmark.y List.map List.seq List.nth Rgtb].

Ltac compare_reals :=
  first [ lra | apply sqrt_lt_threshold; lra | apply sqrt_ge_threshold; lra ].

Ltac decide_comparisons :=
  repeat match goal with
    | |- context [Rltb ?a ?b] =>
        first [ rewrite (proj2 (Rltb_true a b)) by compare_reals
              | rewrite (proj2 (Rltb_false a b)) by compare_reals ]
    end.

Section SampleFacts.

Lemma sample_lengths :
  List.length Samples.pointing_pinched = 21%nat
  /\ List.length Samples.pointing_level = 21%nat
  /\ List.length Samples.three_fingers = 21%nat
  /\ List.length Samples.truncated = 20%nat.
Proof. repeat split. Qed.

Lemma wrist_rules_pointing_pinched :
  Spec.wrist_rules Samples.pointing_pinched
  = [("THREE", false); ("TWO", false); ("POINT", true); ("OPEN", false); ("PINCH", true)].
Proof. unfold_sample. decide_comparisons. reflexivity. Qed.

Lemma vertical_rules_pointing_pinched :
  Spec.vertical_rules Samples.pointing_pinched
  = [("THREE", false); ("TWO", false); ("POINT", true); ("OPEN", false); ("PINCH", true)].
Proof. unfold_sample. decide_comparisons. reflexivity. Qed.

Lemma wrist_rules_pointing_level :
  Spec.wrist_rules Samples.pointing_level
  = [("THREE", false); ("TWO", false); ("POINT", true); ("OPEN", false); ("PINCH", true)].
Proof. unfold_sample. decide_comparisons. reflexivity. Qed.

Lemma vertical_rules_pointing_level :
  Spec.vertical_rules Samples.pointing_level
  = [("THREE", false); ("TWO", false); ("POINT", false); ("OPEN", false); ("PINCH", true)].
Proof. unfold_sample. decide_comparisons. reflexivity. Qed.

Lemma wrist_rules_three_fingers :
  Spec.wrist_rules Samples.three_fingers
  = [("THREE", true); ("TWO", false); ("POINT", false); ("OPEN", false); ("PINCH", true)].
Proof. unfold_sample. decide_comparisons. reflexivity. Qed.

Lemma vertical_rules_three_fingers :
  Spec.vertical_rules Samples.three_fingers
  = [("THREE", true); ("TWO", false); ("POINT", false); ("OPEN", false); ("PINCH", true)].
Proof. unfold_sample. decide_comparisons. reflexivity. Qed.

End SampleFacts.

(** ** Frames with a missing landmark *)

Section ShortFrames.

Import Store.

Lemma get_x_state (p : option Landmark.t) (s : AppState) : snd (Landmark.get_x p s) = s.
Proof. destruct p; reflexivity. Qed.

Lemma get_y_state (p : option Landmark.t) (s : AppState) : snd (Landmark.get_y p s) = s.
Proof. destruct p; reflexivity. Qed.

(** Reading landmarks never writes the store. *)
Lemma wrist_isExtended_state (f : list Landmark.t) (t p : nat) (s : AppState) :
  snd (HandTrackerWrist.isExtended f t p s) = s.
Proof.
  unfold HandTrackerWrist.isExtended.
  destruct (Landmark.at_index f t), (Landmark.at_index f 0), (Landmark.at_index f p); reflexivity.
Qed.

Lemma wrist_isExtended_undefined (f : list Landmark.t) (t p : nat) (s : AppState) :
  Landmark.at_index f t = None ->
  HandTrackerWrist.isExtended f t p s = (Eff.Threw_TypeError, s).
Proof. intros Ht; unfold HandTrackerWrist.isExtended; rewrite Ht; reflexivity. Qed.

Lemma y_lt_state (a b : option Landmark.t) (s : AppState) : snd (HandTracker.y_lt a b s) = s.
Proof. destruct a, b; reflexivity. Qed.

Lemma getDistance_state (a b : option Landmark.t) (s : AppState) :
  snd (HandTracker.getDistance a b s) = s.
Proof. destruct a, b; reflexivity. Qed.

(** A step that leaves the store alone, followed by a rest that throws
    from every outcome of the step, throws. *)
Lemma bind_throws {A B : Type} (m : Eff.t A) (k : A -> Eff.t B) (s : AppState) :
  snd (m s) = s ->
  (forall a, k a s = (Eff.Threw_TypeError, s)) ->
  Eff.bind m k s = (Eff.Threw_TypeError, s).
Proof.
  intros Hm Hk. unfold Eff.bind. destruct (m s) as [[a|] s1]; cbn in Hm; subst s1.
  - apply Hk.
  - reflexivity.
Qed.

Lemma wrist_handPresent_short (f : list Landmark.t) (s : AppState) :
  (List.length f < 21)%nat ->
  HandTrackerWrist.handPresent f s = (Eff.Threw_TypeError, s).
Proof.
  intros Hf. unfold HandTrackerWrist.handPresent.
  do 3 (apply bind_throws; [apply wrist_isExtended_state | intros ?]).
  unfold Eff.bind at 1.
  rewrite wrist_isExtended_undefined by (apply at_index_short; lia). reflexivity.
Qed.

Lemma handPresent_short (f : list Landmark.t) (s : AppState) :
  (List.length f < 21)%nat ->
  HandTracker.handPresent f s = (Eff.Threw_TypeError, s).
Proof.
  intros Hf. unfold HandTracker.handPresent.
  apply bind_throws; [apply getDistance_state | intros ?].
  do 3 (apply bind_throws; [apply y_lt_state | intros ?]).
  rewrite (at_index_short f 20) by lia. reflexivity.
Qed.

End ShortFrames.

Section TrackerTheorems.

Import Store.

(** C2, as the code has it.  On every frame of at least 21 landmarks
    both versions of [predictWebcam] return, and the label they store
    is the one of the first rule that matches in the order THREE, TWO,
    POINT, OPEN, PINCH, with IDLE when none does; it is one of the six
    labels.  In the chain of [components/HandTracker.tsx] a set THREE
    flag gives THREE whatever the TWO flag is.  A frame with POINT's
    shape and a pinch distance below 0.05 is labelled POINT, where
    POINT's shape is: index extended and the other three fingers not
    extended in the wrist-distance version, and index extended and the
    other three fingers curled (tip below the PIP joint) in
    [components/HandTracker.tsx]. *)
Theorem gesture_rules_first_match_wins (f : list Landmark.t) (s : AppState) :
  (21 <= List.length f)%nat ->
  (fst (HandTrackerWrist.predictWebcam [f] s) = Eff.Returned tt
   /\ gestureStatus (snd (HandTrackerWrist.predictWebcam [f] s))
      = Spec.first_match (Spec.wrist_rules f))
  /\ (fst (HandTracker.predictWebcam [f] s) = Eff.Returned tt
      /\ gestureStatus (snd (HandTracker.predictWebcam [f] s))
         = Spec.first_match (Spec.vertical_rules f))
  /\ In (Spec.first_match (Spec.wrist_rules f)) Spec.labels
  /\ In (Spec.first_match (Spec.vertical_rules f)) Spec.labels
  /\ (forall (isTwo isPointing isOpenHand : bool) (pinchDist : R) (tip : option Landmark.t),
        fst (HandTracker.recognise true isTwo isPointing isOpenHand pinchDist tip s)
        = Eff.Returned "THREE")
  /\ (HandTrackerWrist.indexOpen f = true ->
      HandTrackerWrist.middleOpen f = false ->
      HandTrackerWrist.ringOpen f = false ->
      HandTrackerWrist.pinkyOpen f = false ->
      HandTrackerWrist.isPinch f = true ->
      gestureStatus (snd (HandTrackerWrist.predictWebcam [f] s)) = "POINT")
  /\ (HandTracker.isExtended f 8 6 = true ->
      HandTracker.isCurled f 12 10 = true ->
      HandTracker.isCurled f 16 14 = true ->
      HandTracker.isCurled f 20 18 = true ->
      HandTracker.pinchDist f < 0.05 ->
      gestureStatus (snd (HandTracker.predictWebcam [f] s)) = "POINT").
Proof.
  intros Hf.
  rewrite (wrist_predictWebcam_long f s Hf), (predictWebcam_long f s Hf).
  cbn [fst snd]. rewrite !prescribed_gestureStatus.
  split; [split; reflexivity|]. split; [split; reflexivity|].
  split; [|split; [|split; [|split]]].
  - apply first_match_label.
  - apply first_match_label.
  - intros i io d tip; reflexivity.
  - intros Hi Hm Hr Hp _. unfold Spec.wrist_rules. rewrite Hi, Hm, Hr, Hp. reflexivity.
  - intros Hi Hm Hr Hp _. unfold Spec.vertical_rules.
    rewrite (curled_not_extended f 12 10 Hm), (curled_not_extended f 16 14 Hr).
    rewrite Hi, Hm, Hr, Hp. reflexivity.
Qed.

Lemma gesture_rules_first_match_wins_witness :
  (21 <= List.length Samples.pointing_pinched)%nat
  /\ HandTracker.pinchDist Samples.pointing_pinched < 0.05
  /\ gestureStatus (snd (HandTrackerWrist.predictWebcam [Samples.pointing_pinched] useStore))
     = "POINT"
  /\ gestureStatus (snd (HandTracker.predictWebcam [Samples.pointing_pinched] useStore))
     = "POINT".
Proof.
  assert (Hf : (21 <= List.length Samples.pointing_pinched)%nat) by (cbn; lia).
  assert (Hd : HandTracker.pinchDist Samples.pointing_pinched < 0.05)
    by (unfold_sample; compare_reals).
  pose proof (gesture_rules_first_match_wins Samples.pointing_pinched useStore Hf)
    as (_ & _ & _ & _ & _ & Hw & Hv).
  refine (conj Hf (conj Hd (conj _ _))).
  - apply Hw; unfold_sample; decide_comparisons; reflexivity.
  - apply Hv; [unfold_sample; decide_comparisons; reflexivity .. | exact Hd].
Defined.

(** C2 as stated fails on [components/HandTracker.tsx]: with the index
    extended, the middle, ring and little fingers not extended (their
    tips level with their PIP joints) and the thumb tip on the index
    tip, the label is PINCH, not POINT. *)
Lemma level_fingers_with_pinch_give_PINCH :
  HandTracker.isExtended Samples.pointing_level 8 6 = true
  /\ HandTracker.isExtended Samples.pointing_level 12 10 = false
  /\ HandTracker.isExtended Samples.pointing_level 16 14 = false
  /\ HandTracker.isExtended Samples.pointing_level 20 18 = false
  /\ HandTracker.pinchDist Samples.pointing_level < 0.05
  /\ HandTracker.predictWebcam [Samples.pointing_level] useStore
     = (Eff.Returned tt,
        mkAppState (Rmax MIN_ZOOM (Rmin MAX_ZOOM (0.2 - 0.015))) "PINCH" "NONE"
          (mkRotation 0 0))
  /\ gestureStatus (snd (HandTracker.predictWebcam [Samples.pointing_level] useStore))
     <> "POINT".
Proof.
  assert (Hrun : HandTracker.predictWebcam [Samples.pointing_level] useStore
     = (Eff.Returned tt,
        mkAppState (Rmax MIN_ZOOM (Rmin MAX_ZOOM (0.2 - 0.015))) "PINCH" "NONE"
          (mkRotation 0 0))).
  { rewrite predictWebcam_long by (cbn; lia).
    rewrite vertical_rules_pointing_level. reflexivity. }
  repeat split; try (unfold_sample; decide_comparisons; reflexivity).
  - unfold_sample; compare_reals.
  - exact Hrun.
  - rewrite Hrun; cbn; discriminate.
Qed.

(** C3.  On every frame of at least 21 landmarks, each version of
    [predictWebcam] returns and leaves the store in the state
    prescribed for the label it selected: THREE sets the focus target
    to MOON; TWO sets it to EARTH; POINT sets it to SATURN and sets the
    rotation to the index fingertip's offset from [(0.5, 0.5)] times
    [4.0] (the vertical offset in [x], the horizontal one in [y]); OPEN
    adds 0.015 to the zoom level, clamped; PINCH sets the focus target
    to NONE and takes 0.015 off the zoom level, clamped; IDLE changes
    nothing else; and in every case the label itself is stored.  With
    no hand, IDLE is stored and nothing else changes. *)
Theorem label_drives_prescribed_updates (f : list Landmark.t) (s : AppState) :
  (21 <= List.length f)%nat ->
  let tip := Landmark.pt f 8 in
  HandTrackerWrist.predictWebcam [f] s
    = (Eff.Returned tt, Spec.prescribed (Spec.first_match (Spec.wrist_rules f)) tip s)
  /\ HandTracker.predictWebcam [f] s
    = (Eff.Returned tt, Spec.prescribed (Spec.first_match (Spec.vertical_rules f)) tip s)
  /\ HandTrackerWrist.predictWebcam [] s = (Eff.Returned tt, Spec.prescribed "IDLE" tip s)
  /\ HandTracker.predictWebcam [] s = (Eff.Returned tt, Spec.prescribed "IDLE" tip s)
  /\ Spec.prescribed "THREE" tip s
     = mkAppState (zoomLevel s) "THREE" "MOON" (saturnRotation s)
  /\ Spec.prescribed "TWO" tip s
     = mkAppState (zoomLevel s) "TWO" "EARTH" (saturnRotation s)
  /\ Spec.prescribed "POINT" tip s
     = mkAppState (zoomLevel s) "POINT" "SATURN"
         (mkRotation ((Landmark.y tip - 0.5) * 4.0) ((Landmark.x tip - 0.5) * 4.0))
  /\ Spec.prescribed "OPEN" tip s
     = mkAppState (zoomLevel (increaseZoom 0.015 s)) "OPEN" (focusTarget s) (saturnRotation s)
  /\ Spec.prescribed "PINCH" tip s
     = mkAppState (zoomLevel (decreaseZoom 0.015 s)) "PINCH" "NONE" (saturnRotation s)
  /\ Spec.prescribed "IDLE" tip s
     = mkAppState (zoomLevel s) "IDLE" (focusTarget s) (saturnRotation s).
Proof.
  intros Hf tip.
  split; [exact (wrist_predictWebcam_long f s Hf)|].
  split; [exact (predictWebcam_long f s Hf)|].
  repeat split.
Qed.

Lemma label_drives_prescribed_updates_witness :
  (21 <= List.length Samples.pointing_pinched)%nat
  /\ HandTrackerWrist.predictWebcam [Samples.pointing_pinched] useStore
     = (Eff.Returned tt,
        mkAppState 0.2 "POINT" "SATURN" (mkRotation ((0.3 - 0.5) * 4.0) ((0.5 - 0.5) * 4.0)))
  /\ HandTracker.predictWebcam [Samples.three_fingers] useStore
     = (Eff.Returned tt, mkAppState 0.2 "THREE" "MOON" (mkRotation 0 0)).
Proof.
  assert (Hf : (21 <= List.length Samples.pointing_pinched)%nat) by (cbn; lia).
  assert (Hg : (21 <= List.length Samples.three_fingers)%nat) by (cbn; lia).
  pose proof (label_drives_prescribed_updates Samples.pointing_pinched useStore Hf)
    as (Hw & _).
  pose proof (label_drives_prescribed_updates Samples.three_fingers useStore Hg)
    as (_ & Hv & _).
  rewrite wrist_rules_pointing_pinched in Hw.
  rewrite vertical_rules_three_fingers in Hv.
  exact (conj Hf (conj Hw Hv)).
Defined.

(** C4, as the code has it.  A frame with fewer than 21 landmarks makes
    both versions of [predictWebcam] throw a [TypeError] and leaves the
    store as it was: no label is written.  A frame of at least 21
    landmarks never makes them throw, and with no hand they store
    IDLE. *)
Theorem missing_landmark_throws (f : list Landmark.t) (s : AppState) :
  ((List.length f < 21)%nat ->
     HandTrackerWrist.predictWebcam [f] s = (Eff.Threw_TypeError, s)
     /\ HandTracker.predictWebcam [f] s = (Eff.Threw_TypeError, s))
  /\ ((21 <= List.length f)%nat ->
        fst (HandTrackerWrist.predictWebcam [f] s) = Eff.Returned tt
        /\ fst (HandTracker.predictWebcam [f] s) = Eff.Returned tt)
  /\ HandTrackerWrist.predictWebcam [] s = (Eff.Returned tt, setGestureStatus "IDLE" s)
  /\ HandTracker.predictWebcam [] s = (Eff.Returned tt, setGestureStatus "IDLE" s).
Proof.
  split; [|split; [|split; reflexivity]].
  - intros Hf; split.
    + apply wrist_handPresent_short; exact Hf.
    + apply handPresent_short; exact Hf.
  - intros Hf.
    rewrite (wrist_predictWebcam_long f s Hf), (predictWebcam_long f s Hf).
    split; reflexivity.
Qed.

Lemma missing_landmark_throws_witness :
  (List.length Samples.truncated < 21)%nat
  /\ HandTracker.predictWebcam [Samples.truncated] useStore = (Eff.Threw_TypeError, useStore)
  /\ (21 <= List.length Samples.pointing_pinched)%nat
  /\ fst (HandTracker.predictWebcam [Samples.pointing_pinched] useStore) = Eff.Returned tt.
Proof.
  assert (Hs : (List.length Samples.truncated < 21)%nat) by (cbn; lia).
  assert (Hl : (21 <= List.length Samples.pointing_pinched)%nat) by (cbn; lia).
  pose proof (missing_landmark_throws Samples.truncated useStore) as (Hthrow & _).
  pose proof (missing_landmark_throws Samples.pointing_pinched useStore) as (_ & Hret & _).
  exact (conj Hs (conj (proj2 (Hthrow Hs)) (conj Hl (proj2 (Hret Hl))))).
Defined.

(** C4 as stated fails: a hand of 20 landmarks, the last one missing,
    makes both versions throw, and the label POINT left by an earlier
    frame stays in the store; IDLE is not produced. *)
Lemma truncated_frame_throws :
  List.length Samples.truncated = 20%nat
  /\ HandTrackerWrist.predictWebcam [Samples.truncated] Samples.after_point
     = (Eff.Threw_TypeError, Samples.after_point)
  /\ HandTracker.predictWebcam [Samples.truncated] Samples.after_point
     = (Eff.Threw_TypeError, Samples.after_point)
  /\ gestureStatus Samples.after_point = "POINT"
  /\ gestureStatus Samples.after_point <> "IDLE".
Proof.
  split; [reflexivity|].
  split; [apply wrist_handPresent_short; cbn; lia|].
  split; [apply handPresent_short; cbn; lia|].
  split; [reflexivity|cbn; discriminate].
Qed.

(** The union types written in the store for [gestureStatus] and
    [focusTarget] list every label and target but THREE and MOON, which
    the trackers declare and pass; the annotations are erased when the
    program runs and no operation of the store reads them. *)
Remark declared_types_omit_THREE_and_MOON :
  has_type gestureStatus_type "THREE" = false
  /\ has_type focusTarget_type "MOON" = false
  /\ has_type HandTrackerWrist.detectedGesture_type "THREE" = true
  /\ has_type HandTracker.detectedGesture_type "THREE" = true.
Proof. repeat split. Qed.

End TrackerTheorems.

(** ** The camera *)

Section CameraFacts.

Import SolarSystem.

Lemma lerp_is_smooth (a v : Vector3.t) : Vector3.lerp a v 0.05 = Spec.smooth a v.
Proof. reflexivity. Qed.

Lemma moveAndLook_position (cam : Camera) (targetPos lookAtPos : Vector3.t) :
  position (camera (moveAndLook cam targetPos lookAtPos)) = Spec.smooth (position cam) targetPos.
Proof. reflexivity. Qed.

(** The distance [zPos] of the unfocused view. *)
Lemma unfocused_position (focusTarget : string) (zoomLevel time : R) (cam : Camera) :
  ~ In focusTarget ["SATURN"; "EARTH"; "MOON"] ->
  position (camera (useFrame focusTarget zoomLevel time cam))
  = Spec.smooth (position cam)
      (Vector3.mk 0 20
         (if Rltb zoomLevel 0 then 60 + (Rabs zoomLevel / 0.5) * 30
          else MathUtils.lerp 60 4 zoomLevel)).
Proof.
  intros Hno. unfold useFrame.
  destruct (String.eqb_spec focusTarget "SATURN") as [->|_]; [exfalso; apply Hno; cbn; tauto|].
  destruct (String.eqb_spec focusTarget "EARTH") as [->|_]; [exfalso; apply Hno; cbn; tauto|].
  destruct (String.eqb_spec focusTarget "MOON") as [->|_]; [exfalso; apply Hno; cbn; tauto|].
  reflexivity.
Qed.

End CameraFacts.

Section CameraTheorems.

Import SolarSystem.

(** C6, as the code has it.  In every focus state one run of the
    callback moves the camera position by [(target - position) * 0.05]
    towards a target position that does not depend on the camera.
    Outside SATURN, EARTH and MOON the point looked at is smoothed in
    the same way: it is the point one unit ahead of the moved camera,
    moved by 0.05 of the way to the origin.  In SATURN, EARTH and MOON
    the point looked at is not smoothed: it is set in one step,
    whatever the camera was looking at before.  In SATURN and EARTH it
    is the planet's position at that time; in MOON it is a point that
    depends on the time alone. *)
Theorem position_smoothed_lookAt_only_unfocused
    (focusTarget : string) (zoomLevel time : R) (cam : Camera) :
  (exists targetPos : Vector3.t, forall c : Camera,
      position (camera (useFrame focusTarget zoomLevel time c)) = Spec.smooth (position c) targetPos)
  /\ (~ In focusTarget ["SATURN"; "EARTH"; "MOON"] ->
      lookedAt (useFrame focusTarget zoomLevel time cam)
      = Spec.smooth
          (currentLookAt
             (mkCamera (position (camera (useFrame focusTarget zoomLevel time cam))) (forward cam)))
          Vector3.zero)
  /\ (focusTarget = "SATURN" ->
      forall c : Camera,
        lookedAt (useFrame focusTarget zoomLevel time c) = Spec.orbit 42 (time * 0.4 * 0.2 + 5))
  /\ (focusTarget = "EARTH" ->
      forall c : Camera,
        lookedAt (useFrame focusTarget zoomLevel time c) = Spec.orbit 18 (time * 1.0 * 0.2 + 2))
  /\ (focusTarget = "MOON" ->
      forall (z z' : R) (c c' : Camera),
        lookedAt (useFrame focusTarget z time c) = lookedAt (useFrame focusTarget z' time c')).
Proof.
  split; [|split; [|split; [|split]]].
  - unfold useFrame.
    destruct (String.eqb focusTarget "SATURN"); [eexists; intros c; apply moveAndLook_position|].
    destruct (String.eqb focusTarget "EARTH"); [eexists; intros c; apply moveAndLook_position|].
    destruct (String.eqb focusTarget "MOON"); [eexists; intros c; apply moveAndLook_position|].
    eexists; intros c; reflexivity.
  - intros Hno. unfold useFrame.
    destruct (String.eqb_spec focusTarget "SATURN") as [->|_]; [exfalso; apply Hno; cbn; tauto|].
    destruct (String.eqb_spec focusTarget "EARTH") as [->|_]; [exfalso; apply Hno; cbn; tauto|].
    destruct (String.eqb_spec focusTarget "MOON") as [->|_]; [exfalso; apply Hno; cbn; tauto|].
    reflexivity.
  - intros -> c; reflexivity.
  - intros -> c; reflexivity.
  - intros -> z z' c c'; reflexivity.
Qed.

Lemma position_smoothed_lookAt_only_unfocused_witness :
  ~ In "NONE" ["SATURN"; "EARTH"; "MOON"]
  /\ lookedAt (useFrame "NONE" 0 0 Samples.initial_camera)
     = Spec.smooth
         (currentLookAt
            (mkCamera (position (camera (useFrame "NONE" 0 0 Samples.initial_camera)))
               (Vector3.mk 0 0 (-1))))
         Vector3.zero
  /\ lookedAt (useFrame "EARTH" 0 0 Samples.initial_camera)
     = Spec.orbit 18 (0 * 1.0 * 0.2 + 2).
Proof.
  assert (Hno : ~ In "NONE" ["SATURN"; "EARTH"; "MOON"])
    by (cbn; intros [H|[H|[H|[]]]]; discriminate H).
  pose proof (position_smoothed_lookAt_only_unfocused "NONE" 0 0 Samples.initial_camera)
    as (_ & Hnone & _).
  pose proof (position_smoothed_lookAt_only_unfocused "EARTH" 0 0 Samples.initial_camera)
    as (_ & _ & _ & Hearth & _).
  exact (conj Hno (conj (Hnone Hno) (Hearth eq_refl Samples.initial_camera))).
Defined.

(** C6 as stated fails for the point looked at: with the focus on
    EARTH at time 0, from the initial camera, the callback looks
    straight at the Earth's position, which is not the current look-at
    point moved by 0.05 of the way to it, whether the current look-at
    point is taken before or after the position has moved. *)
Lemma focused_lookAt_is_not_smoothed :
  lookedAt (useFrame "EARTH" 0.2 0 Samples.initial_camera) = Spec.orbit 18 (0 * 1.0 * 0.2 + 2)
  /\ lookedAt (useFrame "EARTH" 0.2 0 Samples.initial_camera)
     <> Spec.smooth (currentLookAt Samples.initial_camera) (Spec.orbit 18 (0 * 1.0 * 0.2 + 2))
  /\ lookedAt (useFrame "EARTH" 0.2 0 Samples.initial_camera)
     <> Spec.smooth
          (currentLookAt
             (mkCamera (position (camera (useFrame "EARTH" 0.2 0 Samples.initial_camera)))
                (forward Samples.initial_camera)))
          (Spec.orbit 18 (0 * 1.0 * 0.2 + 2)).
Proof.
  split; [reflexivity|]. split.
  - intros H. apply (f_equal Vector3.y) in H. cbn in H. lra.
  - intros H. apply (f_equal Vector3.y) in H. cbn in H. lra.
Qed.

(** C7.  With the focus on NONE the target position of the camera is
    [(0, 20, d)] where [d] depends on the zoom level alone: below 0 it
    is the base distance 60 plus 60 for each unit below 0; from 0 up it
    is 60 less 56 for each unit, which reaches the minimum distance 4
    at zoom level 1; at zoom level 0 it is the base distance 60, the
    distance of the camera [App] creates. *)
Theorem unfocused_distance_from_zoom :
  exists d : R -> R,
    (forall (zoomLevel time : R) (cam : Camera),
        position (camera (useFrame "NONE" zoomLevel time cam))
        = Spec.smooth (position cam) (Vector3.mk 0 20 (d zoomLevel)))
    /\ (forall z : R, z < 0 -> d z = 60 + 60 * (0 - z) /\ 60 < d z)
    /\ (forall z : R, 0 <= z -> d z = 60 + (4 - 60) * z /\ d z <= 60)
    /\ (forall z : R, 0 <= z <= 1 -> 4 <= d z)
    /\ (forall z1 z2 : R, z1 < z2 -> d z2 < d z1)
    /\ d 0 = 60
    /\ d 1 = 4
    /\ d Store.MIN_ZOOM = 90
    /\ Vector3.mk 0 20 (d 0) = position Samples.initial_camera.
Proof.
  exists (fun z => if Rltb z 0 then 60 + (Rabs z / 0.5) * 30 else MathUtils.lerp 60 4 z).
  assert (Hneg : forall z, z < 0 ->
            (if Rltb z 0 then 60 + (Rabs z / 0.5) * 30 else MathUtils.lerp 60 4 z)
            = 60 + 60 * (0 - z)).
  { intros z Hz. rewrite (proj2 (Rltb_true z 0) Hz). rewrite Rabs_left by exact Hz. lra. }
  assert (Hpos : forall z, 0 <= z ->
            (if Rltb z 0 then 60 + (Rabs z / 0.5) * 30 else MathUtils.lerp 60 4 z)
            = 60 + (4 - 60) * z).
  { intros z Hz. rewrite (proj2 (Rltb_false z 0) Hz). unfold MathUtils.lerp. lra. }
  split; [|split; [|split; [|split; [|split; [|split; [|split]]]]]].
  - intros z t cam. apply unfocused_position.
    cbn; intros [H|[H|[H|[]]]]; discriminate H.
  - intros z Hz. rewrite (Hneg z Hz). lra.
  - intros z Hz. rewrite (Hpos z Hz). lra.
  - intros z [Hz0 Hz1]. rewrite (Hpos z Hz0). lra.
  - intros z1 z2 Hlt.
    destruct (Rlt_dec z1 0) as [H1|H1]; destruct (Rlt_dec z2 0) as [H2|H2].
    + rewrite (Hneg z1 H1), (Hneg z2 H2). lra.
    + rewrite (Hneg z1 H1), (Hpos z2) by lra. lra.
    + lra.
    + rewrite (Hpos z1), (Hpos z2) by lra. lra.
  - rewrite Hpos by lra. lra.
  - rewrite Hpos by lra. lra.
  - unfold Store.MIN_ZOOM. rewrite Hneg by lra. split; [lra|].
    rewrite Hpos by lra. cbn. f_equal. lra.
Qed.

End CameraTheorems.

(** * Further properties of the code *)

(** ** How store operations compose *)

Section StoreComposition.

Import Store.

(** X3.  Operations that write different fields can be swapped, and of two
    absolute writes to the same field the later one wins (so writing
    the same value twice is writing it once). *)
Theorem store_operations_commute_or_overwrite (op1 op2 : Operation) (s : AppState) :
  (written_field op1 <> written_field op2 ->
     perform op1 (perform op2 s) = perform op2 (perform op1 s))
  /\ (forall l1 l2, setZoomLevel l1 (setZoomLevel l2 s) = setZoomLevel l1 s)
  /\ (forall g1 g2, setGestureStatus g1 (setGestureStatus g2 s) = setGestureStatus g1 s)
  /\ (forall t1 t2, setFocusTarget t1 (setFocusTarget t2 s) = setFocusTarget t1 s)
  /\ (forall x1 y1 x2 y2,
        setSaturnRotation x1 y1 (setSaturnRotation x2 y2 s) = setSaturnRotation x1 y1 s).
Proof.
  split; [|repeat split].
  intros Hne. destruct op1, op2; cbn in Hne; try congruence; reflexivity.
Qed.

End StoreComposition.

(** ** The tracking loop *)

Section TrackingLoop.

Import Store WebcamLoop.

Lemma prescribed_well_formed (label : string) (tip : Landmark.t) (s : AppState) :
  In label Spec.labels -> well_formed s -> well_formed (Spec.prescribed label tip s).
Proof.
  intros Hl (Hz & Hg & Hf). unfold Spec.prescribed, well_formed.
  cbn in Hl.
  repeat (destruct Hl as [<-|Hl];
          [cbn; split;
           [first [exact Hz | apply clamp_in_range]
           |split; [tauto | first [exact Hf | tauto]]]|]).
  contradiction.
Qed.

(** What the gesture logic of either version does to the store, for
    every detection result. *)
Lemma wrist_body_cases (results : list (list Landmark.t)) (s : AppState) :
  (exists label tip, In label Spec.labels
      /\ HandTrackerWrist.predictWebcam results s
         = (Eff.Returned tt, Spec.prescribed label tip s))
  \/ HandTrackerWrist.predictWebcam results s = (Eff.Threw_TypeError, s).
Proof.
  destruct results as [|f rest].
  - left; exists "IDLE", Landmark.origin; split; [cbn; tauto|reflexivity].
  - destruct (Nat.le_gt_cases 21 (List.length f)) as [Hf|Hf].
    + left; eexists _, _; split; [|apply wrist_predictWebcam_long; exact Hf].
      apply first_match_label.
    + right; apply wrist_handPresent_short; exact Hf.
Qed.

Lemma vertical_body_cases (results : list (list Landmark.t)) (s : AppState) :
  (exists label tip, In label Spec.labels
      /\ HandTracker.predictWebcam results s
         = (Eff.Returned tt, Spec.prescribed label tip s))
  \/ HandTracker.predictWebcam results s = (Eff.Threw_TypeError, s).
Proof.
  destruct results as [|f rest].
  - left; exists "IDLE", Landmark.origin; split; [cbn; tauto|reflexivity].
  - destruct (Nat.le_gt_cases 21 (List.length f)) as [Hf|Hf].
    + left; eexists _, _; split; [|apply predictWebcam_long; exact Hf].
      apply first_match_label.
    + right; apply handPresent_short; exact Hf.
Qed.

Lemma call_cases (body : list (list Landmark.t) -> Eff.t unit) (i : Invocation) (s : AppState) :
  body_ok body ->
  (store (predictWebcam body i s) = s)
  \/ (exists label tip, In label Spec.labels
        /\ store (predictWebcam body i s) = Spec.prescribed label tip s).
Proof.
  intros Hbody. unfold predictWebcam.
  destruct (handLandmarker i); [|left; reflexivity].
  destruct (videoRef_current i) as [[w h]|]; [|left; reflexivity].
  destruct (canvasRef_current i); [|left; reflexivity].
  destruct (Nat.eqb w 0 || Nat.eqb h 0)%bool; [left; reflexivity|].
  destruct (Hbody (results_landmarks i) s) as [(label & tip & Hl & ->)| -> ].
  - right; exists label, tip; split; [exact Hl|reflexivity].
  - left; reflexivity.
Qed.

Lemma frames_well_formed (body : list (list Landmark.t) -> Eff.t unit)
    (calls : list Invocation) (s : AppState) :
  body_ok body -> well_formed s -> well_formed (frames body calls s).
Proof.
  intros Hbody; revert s; induction calls as [|i rest IH]; intros s Hs; [exact Hs|].
  cbn [frames].
  assert (Hr : well_formed (store (predictWebcam body i s))).
  { destruct (call_cases body i s Hbody) as [ -> |(label & tip & Hl & ->)];
      [exact Hs|apply prescribed_well_formed; assumption]. }
  destruct (requested (predictWebcam body i s)); [apply IH; exact Hr|exact Hr].
Qed.

(** X4.  Whatever the camera delivers, frame after frame, tracking keeps the
    store well formed: from a store holding a zoom level in
    [[-0.5, 1.0]], one of the six labels and one of the four targets,
    any run of animation frames of either version leaves such a
    store. *)
Theorem tracking_keeps_store_well_formed (calls : list Invocation) (s : AppState) :
  well_formed s ->
  well_formed (frames HandTrackerWrist.predictWebcam calls s)
  /\ well_formed (frames HandTracker.predictWebcam calls s).
Proof.
  intros Hs.
  split; apply frames_well_formed;
    [exact wrist_body_cases|exact Hs|exact vertical_body_cases|exact Hs].
Qed.

Lemma tracking_keeps_store_well_formed_witness :
  well_formed useStore
  /\ well_formed
       (frames HandTracker.predictWebcam
          [LoopSamples.warming_up; LoopSamples.seeing [Samples.three_fingers];
           LoopSamples.seeing []; LoopSamples.seeing [Samples.truncated]]
          useStore).
Proof.
  assert (Hs : well_formed useStore).
  { unfold well_formed, zoom_in_range, MIN_ZOOM, MAX_ZOOM; cbn. repeat split; try lra; tauto. }
  exact (conj Hs (proj2 (tracking_keeps_store_well_formed _ useStore Hs))).
Defined.

Lemma frames_cut (body : list (list Landmark.t) -> Eff.t unit)
    (pre post : list Invocation) (i : Invocation) (s : AppState) :
  (forall s', requested (predictWebcam body i s') = false /\ store (predictWebcam body i s') = s') ->
  frames body (pre ++ i :: post) s = frames body pre s.
Proof.
  intros Hstop; revert s; induction pre as [|j pre IH]; intros s; cbn [frames app].
  - destruct (Hstop s) as [-> ->]. reflexivity.
  - destruct (requested (predictWebcam body j s)); [apply IH|reflexivity].
Qed.

Lemma unmounted_stops (body : list (list Landmark.t) -> Eff.t unit) (i : Invocation)
    (s : AppState) :
  unmounted i ->
  requested (predictWebcam body i s) = false /\ store (predictWebcam body i s) = s.
Proof.
  unfold unmounted, predictWebcam; intros [H|[H|H]]; rewrite H.
  - split; reflexivity.
  - destruct (handLandmarker i); split; reflexivity.
  - destruct (handLandmarker i); [|split; reflexivity].
    destruct (videoRef_current i) as [[w h]|]; split; reflexivity.
Qed.

Lemma missing_landmark_stops (body : list (list Landmark.t) -> Eff.t unit) (i : Invocation)
    (s : AppState) :
  (forall f rest s', (List.length f < 21)%nat -> body (f :: rest) s' = (Eff.Threw_TypeError, s')) ->
  missing_landmark i ->
  requested (predictWebcam body i s) = false /\ store (predictWebcam body i s) = s.
Proof.
  intros Hbody ((Hl & Hc & w & h & Hv) & hand & rest & Hres & Hlen).
  unfold predictWebcam. rewrite Hl, Hc, Hv, Hres. cbn [Nat.eqb orb].
  rewrite (Hbody hand rest s Hlen). split; reflexivity.
Qed.

(** X5.  Tracking ends for good at the first animation frame that finds the
    landmarker, the video or the canvas gone, or a hand with fewer than
    21 landmarks: that frame leaves the store as it was and requests no
    further frame, so the store is the same whatever the camera would
    have delivered afterwards.  A frame that finds the video without a
    size is skipped: it changes nothing and the next frame runs. *)
Theorem tracking_ends_at_first_bad_frame
    (body : list (list Landmark.t) -> Eff.t unit)
    (pre post : list Invocation) (i : Invocation) (s : AppState) :
  body = HandTrackerWrist.predictWebcam \/ body = HandTracker.predictWebcam ->
  (missing_landmark i \/ unmounted i ->
     requested (predictWebcam body i s) = false
     /\ store (predictWebcam body i s) = s
     /\ frames body (pre ++ i :: post) s = frames body pre s)
  /\ (unsized i -> frames body (i :: post) s = frames body post s).
Proof.
  intros Hbody.
  assert (Hshort : forall f rest s', (List.length f < 21)%nat ->
            body (f :: rest) s' = (Eff.Threw_TypeError, s')).
  { intros f rest s' Hf. destruct Hbody as [ -> | -> ].
    - apply wrist_handPresent_short; exact Hf.
    - apply handPresent_short; exact Hf. }
  assert (Hstop : missing_landmark i \/ unmounted i -> forall s',
            requested (predictWebcam body i s') = false /\ store (predictWebcam body i s') = s').
  { intros [Hi|Hi] s'; [apply missing_landmark_stops|apply unmounted_stops]; assumption. }
  split.
  - intros Hi. destruct (Hstop Hi s) as [Hreq Hst].
    split; [exact Hreq|]. split; [exact Hst|]. apply frames_cut. exact (Hstop Hi).
  - intros (Hl & Hc & w & h & Hv & Hzero). cbn [frames]. unfold predictWebcam.
    rewrite Hl, Hc, Hv.
    replace (Nat.eqb w 0 || Nat.eqb h 0)%bool with true; [reflexivity|].
    destruct Hzero as [ -> | -> ]; cbn; [reflexivity|]. symmetry; apply orb_true_r.
Qed.

Lemma tracking_ends_at_first_bad_frame_witness :
  missing_landmark (LoopSamples.seeing [Samples.truncated])
  /\ unsized LoopSamples.warming_up
  /\ frames HandTracker.predictWebcam
       ([LoopSamples.seeing [Samples.three_fingers]]
          ++ LoopSamples.seeing [Samples.truncated]
          :: [LoopSamples.seeing [Samples.pointing_pinched]])
       useStore
     = frames HandTracker.predictWebcam [LoopSamples.seeing [Samples.three_fingers]] useStore
  /\ frames HandTracker.predictWebcam
       [LoopSamples.warming_up; LoopSamples.seeing [Samples.three_fingers]] useStore
     = frames HandTracker.predictWebcam [LoopSamples.seeing [Samples.three_fingers]] useStore.
Proof.
  assert (Hm : missing_landmark (LoopSamples.seeing [Samples.truncated])).
  { split.
    - split; [reflexivity|]. split; [reflexivity|]. exists 319%nat, 239%nat. reflexivity.
    - exists Samples.truncated, []. split; [reflexivity|cbn; lia]. }
  assert (Hu : unsized LoopSamples.warming_up).
  { split; [reflexivity|]. split; [reflexivity|]. exists 0%nat, 0%nat. split; [reflexivity|tauto]. }
  pose proof (tracking_ends_at_first_bad_frame HandTracker.predictWebcam
                [LoopSamples.seeing [Samples.three_fingers]]
                [LoopSamples.seeing [Samples.pointing_pinched]]
                (LoopSamples.seeing [Samples.truncated]) useStore (or_intror eq_refl))
    as (Hcut & _).
  pose proof (tracking_ends_at_first_bad_frame HandTracker.predictWebcam
                [] [LoopSamples.seeing [Samples.three_fingers]]
                LoopSamples.warming_up useStore (or_intror eq_refl))
    as (_ & Hskip).
  exact (conj Hm (conj Hu (conj (proj2 (proj2 (Hcut (or_introl Hm)))) (Hskip Hu)))).
Defined.

End TrackingLoop.

(** ** Moving and turning the hand *)

Section HandPlacement.

Import Store.

Lemma pt_map (T : Landmark.t -> Landmark.t) (f : list Landmark.t) (i : nat) :
  (i < List.length f)%nat -> Landmark.pt (map T f) i = T (Landmark.pt f i).
Proof.
  intros Hi. unfold Landmark.pt.
  rewrite (nth_indep (map T f) Landmark.origin (T Landmark.origin))
    by (rewrite length_map; exact Hi).
  apply map_nth.
Qed.


Lemma Rltb_mirror (a b : R) : Rltb (1 - a) (1 - b) = Rltb b a.
Proof.
  unfold Rltb.
  destruct (Rlt_dec (1 - a) (1 - b)) as [H|H], (Rlt_dec b a) as [H'|H'];
    try reflexivity; exfalso; lra.
Qed.






(** X7.  The version of [components/HandTracker.tsx] does care: in a frame
    turned upside down every finger that was extended reads as curled
    and every curled one as extended, while the pinch distance is the
    same; so a hand whose index is extended (as in THREE, TWO, POINT
    and OPEN), held upside down, is labelled PINCH when the pinch
    distance is below 0.05 and IDLE otherwise.  The wrist-distance
    version reads the same rule flags from both frames. *)
Theorem vertical_version_fails_upside_down (f : list Landmark.t) (s : AppState) :
  (21 <= List.length f)%nat ->
  let g := map Transform.upsideDown f in
  (forall t p : nat, (t < 21)%nat -> (p < 21)%nat ->
      HandTracker.isExtended g t p = HandTracker.isCurled f t p
      /\ HandTracker.isCurled g t p = HandTracker.isExtended f t p)
  /\ HandTracker.pinchDist g = HandTracker.pinchDist f
  /\ (HandTracker.isExtended f 8 6 = true ->
      gestureStatus (snd (HandTracker.predictWebcam [g] s))
      = if Rltb (HandTracker.pinchDist f) 0.05 then "PINCH" else "IDLE")
  /\ Spec.wrist_rules g = Spec.wrist_rules f.
Proof.
  intros Hf g.
  assert (Hswap : forall t p : nat, (t < 21)%nat -> (p < 21)%nat ->
      HandTracker.isExtended g t p = HandTracker.isCurled f t p
      /\ HandTracker.isCurled g t p = HandTracker.isExtended f t p).
  { intros t p Ht Hp. unfold HandTracker.isExtended, HandTracker.isCurled, Rgtb, g.
    rewrite !pt_map by lia. cbn [Transform.upsideDown Landmark.y].
    split; apply Rltb_mirror. }
  assert (Hdist : HandTracker.pinchDist g = HandTracker.pinchDist f).
  { unfold HandTracker.pinchDist, g. rewrite !pt_map by lia.
    cbn [Transform.upsideDown Landmark.x Landmark.y]. f_equal. ring. }
  split; [exact Hswap|]. split; [exact Hdist|]. split.
  - intros Hindex.
    assert (Hg : (21 <= List.length g)%nat) by (unfold g; rewrite length_map; exact Hf).
    rewrite (predictWebcam_long g s Hg). cbn [snd]. rewrite prescribed_gestureStatus.
    unfold Spec.vertical_rules.
    assert (Hno : HandTracker.isExtended g 8 6 = false).
    { rewrite (proj1 (Hswap 8 6 ltac:(lia) ltac:(lia)))%nat.
      unfold HandTracker.isExtended in Hindex. unfold HandTracker.isCurled.
      apply Rltb_true in Hindex. apply Rgtb_false. lra. }
    rewrite Hno, Hdist. cbn [andb Spec.first_match].
    destruct (Rltb (HandTracker.pinchDist f) 0.05); reflexivity.
  - unfold Spec.wrist_rules, HandTrackerWrist.indexOpen, HandTrackerWrist.middleOpen,
      HandTrackerWrist.ringOpen, HandTrackerWrist.pinkyOpen, HandTrackerWrist.isPinch,
      HandTrackerWrist.extended, g.
    rewrite !pt_map by lia. cbn [Transform.upsideDown Landmark.x Landmark.y].
    repeat match goal with
      | |- context [(1 - ?a - (1 - ?b)) ^ 2] =>
          replace ((1 - a - (1 - b)) ^ 2) with ((a - b) ^ 2) by ring
      end.
    reflexivity.
Qed.

Lemma vertical_version_fails_upside_down_witness :
  (21 <= List.length Samples.three_fingers)%nat
  /\ gestureStatus (snd (HandTracker.predictWebcam [Samples.three_fingers] useStore)) = "THREE"
  /\ gestureStatus
       (snd (HandTracker.predictWebcam [map Transform.upsideDown Samples.three_fingers] useStore))
     = "PINCH".
Proof.
  assert (Hf : (21 <= List.length Samples.three_fingers)%nat) by (cbn; lia).
  pose proof (vertical_version_fails_upside_down Samples.three_fingers useStore Hf)
    as (_ & _ & Hdown & _).
  assert (Hi : HandTracker.isExtended Samples.three_fingers 8 6 = true)
    by (unfold_sample; decide_comparisons; reflexivity).
  assert (Hp : Rltb (HandTracker.pinchDist Samples.three_fingers) 0.05 = true)
    by (unfold_sample; decide_comparisons; reflexivity).
  specialize (Hdown Hi). rewrite Hp in Hdown.
  refine (conj Hf (conj _ Hdown)).
  rewrite predictWebcam_long by exact Hf. rewrite vertical_rules_three_fingers. reflexivity.
Defined.

End HandPlacement.

(** ** The pointing direction *)

Section PointingDirection.

Import Store.

Lemma prescribed_rotation (label : string) (tip : Landmark.t) (s : AppState) :
  (label = "POINT"
   /\ saturnRotation (Spec.prescribed label tip s)
      = mkRotation ((Landmark.y tip - 0.5) * 4.0) ((Landmark.x tip - 0.5) * 4.0))
  \/ (label <> "POINT"
      /\ saturnRotation (Spec.prescribed label tip s) = saturnRotation s).
Proof.
  unfold Spec.prescribed.
  destruct (String.eqb_spec label "THREE") as [ -> |_]; [right; split; [discriminate|reflexivity]|].
  destruct (String.eqb_spec label "TWO") as [ -> |_]; [right; split; [discriminate|reflexivity]|].
  destruct (String.eqb_spec label "POINT") as [ -> |Hn]; [left; split; reflexivity|].
  right; split; [exact Hn|].
  destruct (String.eqb label "OPEN"); [reflexivity|].
  destruct (String.eqb label "PINCH"); reflexivity.
Qed.

Lemma rotation_of_tip_within_2 (tip : Landmark.t) :
  0 <= Landmark.x tip <= 1 -> 0 <= Landmark.y tip <= 1 ->
  -2 <= (Landmark.y tip - 0.5) * 4.0 <= 2 /\ -2 <= (Landmark.x tip - 0.5) * 4.0 <= 2.
Proof. intros Hx Hy; lra. Qed.

(** X8.  With the index fingertip inside the image ([0 <= x, y <= 1]) the
    rotation a frame stores never leaves the square [[-2, 2] x [-2, 2]]:
    a frame labelled POINT stores a rotation inside it, whatever was
    stored before, and every other frame keeps the stored rotation.
    This holds for both versions of the gesture logic. *)
Theorem pointing_rotation_within_2 (f : list Landmark.t) (s : AppState) :
  (21 <= List.length f)%nat ->
  0 <= Landmark.x (Landmark.pt f 8) <= 1 ->
  0 <= Landmark.y (Landmark.pt f 8) <= 1 ->
  forall s' : AppState,
    s' = snd (HandTrackerWrist.predictWebcam [f] s)
    \/ s' = snd (HandTracker.predictWebcam [f] s) ->
    (gestureStatus s' = "POINT" ->
       -2 <= rot_x (saturnRotation s') <= 2 /\ -2 <= rot_y (saturnRotation s') <= 2)
    /\ (gestureStatus s' <> "POINT" -> saturnRotation s' = saturnRotation s).
Proof.
  intros Hf Hx Hy s' Hs'.
  assert (Hpre : exists label, s' = Spec.prescribed label (Landmark.pt f 8) s).
  { destruct Hs' as [ -> | -> ].
    - rewrite (wrist_predictWebcam_long f s Hf); eexists; reflexivity.
    - rewrite (predictWebcam_long f s Hf); eexists; reflexivity. }
  destruct Hpre as [label ->]. rewrite prescribed_gestureStatus.
  destruct (prescribed_rotation label (Landmark.pt f 8) s) as [[Hl Hrot]|[Hl Hrot]];
    rewrite Hrot; split; intros H; try contradiction; try reflexivity.
  cbn [rot_x rot_y]. apply rotation_of_tip_within_2; assumption.
Qed.

Lemma pointing_rotation_within_2_witness :
  (21 <= List.length Samples.pointing_pinched)%nat
  /\ 0 <= Landmark.x (Landmark.pt Samples.pointing_pinched 8) <= 1
  /\ 0 <= Landmark.y (Landmark.pt Samples.pointing_pinched 8) <= 1
  /\ -2 <= rot_x (saturnRotation (snd (HandTracker.predictWebcam [Samples.pointing_pinched] useStore)))
     <= 2.
Proof.
  assert (Hf : (21 <= List.length Samples.pointing_pinched)%nat) by (cbn; lia).
  assert (Hx : 0 <= Landmark.x (Landmark.pt Samples.pointing_pinched 8) <= 1)
    by (unfold_sample; lra).
  assert (Hy : 0 <= Landmark.y (Landmark.pt Samples.pointing_pinched 8) <= 1)
    by (unfold_sample; lra).
  pose proof (pointing_rotation_within_2 Samples.pointing_pinched useStore Hf Hx Hy
                (snd (HandTracker.predictWebcam [Samples.pointing_pinched] useStore))
                (or_intror eq_refl)) as (Hpoint & _).
  refine (conj Hf (conj Hx (conj Hy (proj1 (Hpoint _))))).
  rewrite predictWebcam_long by exact Hf. rewrite vertical_rules_pointing_pinched. reflexivity.
Defined.

End PointingDirection.

(** ** The overlay *)

Section Overlay.

Import Store UIOverlay.

(** X9.  The zoom bar stays on its track while the zoom level is in
    range: for a level in [[-0.5, 1.0]] its width is between 0 and 100
    percent.  The width never shrinks when the level grows; the bar is
    empty at [MIN_ZOOM], full at [MAX_ZOOM], and at zoom level 0 it
    ends on the zero mark.  The three marks are the same on binary64
    numbers, where a NaN level gives a NaN width. *)
Theorem zoom_bar_stays_on_track (z : R) :
  zoom_in_range z ->
  0 <= barPercentage z <= 100
  /\ (forall z1 z2 : R, z1 <= z2 -> barPercentage z1 <= barPercentage z2)
  /\ barPercentage MIN_ZOOM = 0
  /\ barPercentage MAX_ZOOM = 100
  /\ barPercentage 0 = zeroMark
  /\ Binary64.barPercentage Binary64.MIN_ZOOM = Binary64.empty_bar
  /\ Binary64.barPercentage Binary64.MAX_ZOOM = Binary64.full_bar
  /\ Binary64.barPercentage Binary64.empty_bar = Binary64.zeroMark
  /\ Binary64.is_nan (Binary64.barPercentage PrimFloat.nan) = true.
Proof.
  intros [Hlo Hhi].
  assert (Hbar : forall z, barPercentage z = (z + 0.5) / 1.5 * 100).
  { intros z'. unfold barPercentage, normalizedValue, range, MIN_ZOOM, MAX_ZOOM. f_equal.
    f_equal; lra. }
  split; [|split; [|split; [|split; [|split]]]].
  - unfold MIN_ZOOM, MAX_ZOOM in Hlo, Hhi. rewrite Hbar. lra.
  - intros z1 z2 Hle. rewrite !Hbar. lra.
  - rewrite Hbar. unfold MIN_ZOOM. lra.
  - rewrite Hbar. unfold MAX_ZOOM. lra.
  - rewrite Hbar. unfold zeroMark, range, MIN_ZOOM, MAX_ZOOM. lra.
  - repeat split; vm_compute; reflexivity.
Qed.

Lemma zoom_bar_stays_on_track_witness :
  zoom_in_range (zoomLevel useStore)
  /\ 0 <= barPercentage (zoomLevel useStore) <= 100.
Proof.
  assert (Hs : zoom_in_range (zoomLevel useStore))
    by (unfold zoom_in_range, MIN_ZOOM, MAX_ZOOM; cbn; lra).
  exact (conj Hs (proj1 (zoom_bar_stays_on_track (zoomLevel useStore) Hs))).
Defined.

(** X10.  The status line after a frame.  A frame of at least 21 landmarks
    that either version labels THREE leaves the overlay on [Ready]: the
    overlay knows neither the label THREE nor the target MOON.  One
    labelled TWO shows [Visiting Earth], one labelled POINT shows
    [Controlling Saturn].  One labelled PINCH shows [Zooming Out...]
    unless the zoom level it leaves is above 0.85, where the scattering
    warning replaces it. *)
Theorem status_line_after_frame (f : list Landmark.t) (s s' : AppState) :
  (21 <= List.length f)%nat ->
  s' = snd (HandTrackerWrist.predictWebcam [f] s)
  \/ s' = snd (HandTracker.predictWebcam [f] s) ->
  let text := statusText (zoomLevel s') (gestureStatus s') (focusTarget s') in
  (gestureStatus s' = "THREE" -> text = "Ready")
  /\ (gestureStatus s' = "TWO" -> text = "Visiting Earth")
  /\ (gestureStatus s' = "POINT" -> text = "Controlling Saturn")
  /\ (gestureStatus s' = "PINCH" ->
      text = if Rgtb (zoomLevel s') 0.85 then "⚠️ SCATTERING ⚠️" else "Zooming Out...").
Proof.
  intros Hf Hs'.
  assert (Hpre : exists label, s' = Spec.prescribed label (Landmark.pt f 8) s).
  { destruct Hs' as [ -> | -> ].
    - rewrite (wrist_predictWebcam_long f s Hf); eexists; reflexivity.
    - rewrite (predictWebcam_long f s Hf); eexists; reflexivity. }
  destruct Hpre as [label ->]. cbv zeta. rewrite prescribed_gestureStatus.
  split; [|split; [|split]]; intros ->.
  - unfold statusText; cbn -[Rgtb]. rewrite andb_false_r. reflexivity.
  - unfold statusText; cbn -[Rgtb]. rewrite andb_false_r. reflexivity.
  - unfold statusText; cbn -[Rgtb]. rewrite andb_false_r. reflexivity.
  - unfold statusText; cbn -[Rgtb Rmax Rmin]. rewrite andb_true_r. reflexivity.
Qed.

Lemma status_line_after_frame_witness :
  (21 <= List.length Samples.three_fingers)%nat
  /\ statusText
       (zoomLevel (snd (HandTracker.predictWebcam [Samples.three_fingers] useStore)))
       (gestureStatus (snd (HandTracker.predictWebcam [Samples.three_fingers] useStore)))
       (focusTarget (snd (HandTracker.predictWebcam [Samples.three_fingers] useStore)))
     = "Ready".
Proof.
  assert (Hf : (21 <= List.length Samples.three_fingers)%nat) by (cbn; lia).
  pose proof (status_line_after_frame Samples.three_fingers useStore
                (snd (HandTracker.predictWebcam [Samples.three_fingers] useStore))
                Hf (or_intror eq_refl)) as (Hthree & _).
  refine (conj Hf (Hthree _)).
  rewrite predictWebcam_long by exact Hf. rewrite vertical_rules_three_fingers. reflexivity.
Defined.

End Overlay.

(** ** The planets and the camera *)

Section Planets.

Import Store Scene.

Lemma length_zero : Vector3.length Vector3.zero = 0.
Proof.
  unfold Vector3.length, Vector3.zero; cbn.
  replace (0 * 0 + 0 * 0 + 0 * 0) with 0 by ring. apply sqrt_0.
Qed.

(** [setLength] cannot move the zero vector. *)
Lemma setLength_zero (l : R) : setLength Vector3.zero l = Vector3.zero.
Proof.
  unfold setLength, normalize. rewrite length_zero.
  destruct (Req_dec_T 0 0) as [_|H]; [|contradiction H; reflexivity].
  unfold multiplyScalar, Vector3.zero; cbn. f_equal; field.
Qed.

Lemma Planet_useFrame_position (props : PlanetProps) (manual : option Rotation)
    (zoomLevel time : R) (p : Planet) :
  group_position p = Vector3.zero ->
  group_position (Planet_useFrame props manual zoomLevel time p) = Vector3.zero.
Proof.
  intros Hp. unfold Planet_useFrame; cbn [group_position]. rewrite Hp.
  destruct (Rgtb zoomLevel 1.0); apply setLength_zero.
Qed.

Lemma Planet_frames_position (props : PlanetProps) (inputs : list (option Rotation * R * R))
    (p : Planet) :
  group_position p = Vector3.zero ->
  group_position (Planet_frames props inputs p) = Vector3.zero.
Proof.
  revert p; induction inputs as [|i rest IH]; intros p Hp; [exact Hp|].
  cbn [Planet_frames fold_left]. apply IH. apply Planet_useFrame_position; exact Hp.
Qed.

Lemma rotateY_on_axis (theta d : R) :
  rotateY theta (Vector3.mk d 0 0) = Spec.orbit d theta.
Proof. unfold rotateY, Spec.orbit; cbn. f_equal; ring. Qed.

Lemma add_zero_l (v : Vector3.t) : Vector3.add Vector3.zero v = v.
Proof. destruct v; unfold Vector3.add, Vector3.zero; cbn. f_equal; ring. Qed.

Lemma orbit_length (d a : R) : Vector3.length (Spec.orbit d a) = Rabs d.
Proof.
  unfold Vector3.length, Spec.orbit; cbn.
  replace (cos a * d * (cos a * d) + 0 * 0 + - sin a * d * (- sin a * d))
    with (Rsqr d * ((sin a)² + (cos a)²)) by (unfold Rsqr; ring).
  rewrite sin2_cos2, Rmult_1_r. apply sqrt_Rsqr_abs.
Qed.

Lemma bodyWorldPosition_after_frame (props : PlanetProps) (manual : option Rotation)
    (zoomLevel time : R) (p : Planet) :
  group_position p = Vector3.zero ->
  bodyWorldPosition props (Planet_useFrame props manual zoomLevel time p)
  = Spec.orbit (distance props) (time * speed props * 0.2 + rotationOffset props).
Proof.
  intros Hp. unfold bodyWorldPosition.
  rewrite (Planet_useFrame_position props manual zoomLevel time p Hp), add_zero_l.
  cbn [Planet_useFrame group_rotation_y]. apply rotateY_on_axis.
Qed.

(** X11.  A planet never leaves its orbit ring.  The callback's
    [position.setLength] acts on the outer group's position, which is
    the zero vector and stays the zero vector, so after any run of
    frames, for every zoom level (also one above 1.0, where the
    callback asks for an expansion), the planet body is on the circle
    of radius [distance] around the origin, at the angle
    [time * speed * 0.2 + rotationOffset]. *)
Theorem planet_never_leaves_its_orbit (props : PlanetProps)
    (inputs : list (option Rotation * R * R)) (manual : option Rotation) (zoomLevel time : R) :
  let p := Planet_frames props inputs mounted in
  let p' := Planet_useFrame props manual zoomLevel time p in
  group_position p' = Vector3.zero
  /\ bodyWorldPosition props p'
     = Spec.orbit (distance props) (time * speed props * 0.2 + rotationOffset props)
  /\ Vector3.length (bodyWorldPosition props p') = Rabs (distance props).
Proof.
  cbv zeta.
  assert (Hp : group_position (Planet_frames props inputs mounted) = Vector3.zero)
    by (apply Planet_frames_position; reflexivity).
  split; [apply Planet_useFrame_position; exact Hp|].
  rewrite (bodyWorldPosition_after_frame props manual zoomLevel time _ Hp).
  split; [reflexivity|apply orbit_length].
Qed.

(** X12.  With the focus on EARTH or on SATURN the camera looks at the
    centre of the planet as it is drawn in the same frame: the point
    handed to [camera.lookAt] is the world position of the planet's
    body after [Planet]'s callback ran at the same time. *)
Theorem camera_looks_at_the_drawn_planet (zoomLevel time : R) (cam : SolarSystem.Camera)
    (earth_inputs saturn_inputs : list (option Rotation * R * R)) (manual : option Rotation) :
  SolarSystem.lookedAt (SolarSystem.useFrame "EARTH" zoomLevel time cam)
  = bodyWorldPosition earth
      (Planet_useFrame earth None zoomLevel time (Planet_frames earth earth_inputs mounted))
  /\ SolarSystem.lookedAt (SolarSystem.useFrame "SATURN" zoomLevel time cam)
     = bodyWorldPosition saturn
         (Planet_useFrame saturn manual zoomLevel time (Planet_frames saturn saturn_inputs mounted)).
Proof.
  split.
  - rewrite bodyWorldPosition_after_frame by (apply Planet_frames_position; reflexivity).
    reflexivity.
  - rewrite bodyWorldPosition_after_frame by (apply Planet_frames_position; reflexivity).
    reflexivity.
Qed.

Lemma rotateY_add (v w : Vector3.t) (theta : R) :
  rotateY theta (Vector3.add v w) = Vector3.add (rotateY theta v) (rotateY theta w).
Proof. unfold rotateY, Vector3.add; cbn. f_equal; ring. Qed.

Lemma rotateY_orbit (a b d : R) : rotateY a (Spec.orbit d b) = Spec.orbit d (a + b).
Proof.
  unfold rotateY, Spec.orbit; cbn. rewrite cos_plus, sin_plus. f_equal; ring.
Qed.

(** X13.  With the focus on MOON the camera does not look at the Moon as it
    is drawn.  The drawn Moon turns with the Earth's group as well as
    with its own orbit group, so it is at the Earth plus the point of
    its orbit at the angle [earthAngle + time * 0.5]; the camera looks
    at the Earth plus the point at the angle [time * 0.5].  Both are on
    the Moon's orbit ring, the square of their distance is
    [2 * 3.5 * 3.5 * (1 - cos earthAngle)], so they coincide only when
    [cos earthAngle = 1]; at time 0 they differ. *)
Theorem camera_misses_the_drawn_moon (zoomLevel time : R) (cam : SolarSystem.Camera)
    (inputs : list (option Rotation * R * R)) (m : Moon) :
  let earthAngle := time * 1.0 * 0.2 + 2 in
  let e := Planet_useFrame earth None zoomLevel time (Planet_frames earth inputs mounted) in
  let drawn := moonWorldPosition 3.5 e (RealisticMoon_useFrame time m) in
  let looked := SolarSystem.lookedAt (SolarSystem.useFrame "MOON" zoomLevel time cam) in
  drawn = Vector3.add (Spec.orbit 18 earthAngle) (Spec.orbit 3.5 (earthAngle + time * 0.5))
  /\ looked = Vector3.add (Spec.orbit 18 earthAngle) (Spec.orbit 3.5 (time * 0.5))
  /\ (Vector3.x drawn - Vector3.x looked) ^ 2 + (Vector3.y drawn - Vector3.y looked) ^ 2
     + (Vector3.z drawn - Vector3.z looked) ^ 2
     = 2 * 3.5 * 3.5 * (1 - cos earthAngle)
  /\ (drawn = looked <-> cos earthAngle = 1)
  /\ (time = 0 -> drawn <> looked).
Proof.
  cbv zeta.
  set (earthAngle := time * 1.0 * 0.2 + 2).
  assert (Hdrawn :
    moonWorldPosition 3.5
      (Planet_useFrame earth None zoomLevel time (Planet_frames earth inputs mounted))
      (RealisticMoon_useFrame time m)
    = Vector3.add (Spec.orbit 18 earthAngle) (Spec.orbit 3.5 (earthAngle + time * 0.5))).
  { unfold moonWorldPosition.
    rewrite Planet_useFrame_position by (apply Planet_frames_position; reflexivity).
    rewrite add_zero_l, rotateY_add, !rotateY_on_axis, rotateY_orbit.
    cbn [Planet_useFrame group_rotation_y RealisticMoon_useFrame orbit_rotation_y earth
         distance speed rotationOffset].
    replace (time * 1.0 * 0.2 + 2) with earthAngle by reflexivity. reflexivity. }
  assert (Hlooked :
    SolarSystem.lookedAt (SolarSystem.useFrame "MOON" zoomLevel time cam)
    = Vector3.add (Spec.orbit 18 earthAngle) (Spec.orbit 3.5 (time * 0.5))).
  { unfold Vector3.add, Spec.orbit, earthAngle; cbn. f_equal; lra. }
  assert (Hdist :
    forall a b : R,
      (Vector3.x (Vector3.add (Spec.orbit 18 a) (Spec.orbit 3.5 (a + b)))
         - Vector3.x (Vector3.add (Spec.orbit 18 a) (Spec.orbit 3.5 b))) ^ 2
      + (Vector3.y (Vector3.add (Spec.orbit 18 a) (Spec.orbit 3.5 (a + b)))
         - Vector3.y (Vector3.add (Spec.orbit 18 a) (Spec.orbit 3.5 b))) ^ 2
      + (Vector3.z (Vector3.add (Spec.orbit 18 a) (Spec.orbit 3.5 (a + b)))
         - Vector3.z (Vector3.add (Spec.orbit 18 a) (Spec.orbit 3.5 b))) ^ 2
      = 2 * 3.5 * 3.5 * (1 - cos a)).
  { intros a b. unfold Vector3.add, Spec.orbit; cbn [Vector3.x Vector3.y Vector3.z].
    replace (cos a) with (cos ((a + b) - b)) at 3 by (f_equal; ring).
    rewrite cos_minus.
    pose proof (sin2_cos2 (a + b)) as H1. pose proof (sin2_cos2 b) as H2.
    unfold Rsqr in H1, H2. nra. }
  rewrite Hdrawn, Hlooked. split; [reflexivity|]. split; [reflexivity|].
  split; [apply Hdist|].
  assert (Hiff : Vector3.add (Spec.orbit 18 earthAngle) (Spec.orbit 3.5 (earthAngle + time * 0.5))
                 = Vector3.add (Spec.orbit 18 earthAngle) (Spec.orbit 3.5 (time * 0.5))
                 <-> cos earthAngle = 1).
  { split.
    - intros Heq. pose proof (Hdist earthAngle (time * 0.5)) as Hd. rewrite Heq in Hd. nra.
    - intros Hcos. pose proof (sin2_cos2 earthAngle) as H. unfold Rsqr in H.
      assert (Hsin : sin earthAngle = 0) by nra.
      unfold Spec.orbit. rewrite cos_plus, sin_plus, Hcos, Hsin.
      unfold Vector3.add; cbn. f_equal; ring. }
  split; [exact Hiff|].
  intros Ht Heq. apply Hiff in Heq. rename Heq into Hcos.
  assert (Hsin : 0 < sin earthAngle).
  { unfold earthAngle; rewrite Ht. apply sin_gt_0; [lra|].
    pose proof PI2_1. lra. }
  pose proof (sin2_cos2 earthAngle) as H. unfold Rsqr in H. nra.
Qed.

(** Where the Moon is drawn after a frame of the callbacks of the Earth
    and of the Moon at the same time. *)
Lemma moonWorldPosition_after_frame (zoomLevel time : R)
    (inputs : list (option Rotation * R * R)) (m : Moon) :
  moonWorldPosition 3.5
    (Planet_useFrame earth None zoomLevel time (Planet_frames earth inputs mounted))
    (RealisticMoon_useFrame time m)
  = Vector3.add (Spec.orbit 18 (time * 1.0 * 0.2 + 2))
      (Spec.orbit 3.5 ((time * 1.0 * 0.2 + 2) + time * 0.5)).
Proof.
  unfold moonWorldPosition.
  rewrite Planet_useFrame_position by (apply Planet_frames_position; reflexivity).
  rewrite add_zero_l, rotateY_add, !rotateY_on_axis, rotateY_orbit.
  reflexivity.
Qed.

(** Two points of a circle around the same centre, a turn by [a] apart. *)
Lemma turned_apart (c : Vector3.t) (d a b : R) :
  Vector3.add c (Spec.orbit d (a + b)) = Vector3.add c (Spec.orbit d b) ->
  d <> 0 -> cos a = 1.
Proof.
  intros Heq Hd.
  pose proof (f_equal Vector3.x Heq) as Hx. pose proof (f_equal Vector3.z Heq) as Hz.
  unfold Vector3.add, Spec.orbit in Hx, Hz; cbn [Vector3.x Vector3.z] in Hx, Hz.
  assert (Hc : cos (a + b) = cos b) by nra.
  assert (Hs : sin (a + b) = sin b) by nra.
  replace a with ((a + b) - b) by ring. rewrite cos_minus, Hc, Hs.
  pose proof (sin2_cos2 b) as H. unfold Rsqr in H. lra.
Qed.

Lemma cos_2_not_1 : cos 2 <> 1.
Proof.
  intros Hcos.
  assert (Hsin : 0 < sin 2) by (apply sin_gt_0; [lra|pose proof PI2_1; lra]).
  pose proof (sin2_cos2 2) as H. unfold Rsqr in H. nra.
Qed.

Lemma add_cancel_r (u v w : Vector3.t) : Vector3.add u w = Vector3.add v w -> u = v.
Proof.
  destruct u, v, w; unfold Vector3.add; cbn. intros H; inversion H. f_equal; lra.
Qed.

(** C8.  With the focus on MOON the callback computes, next to the
    comments "Matches RealisticMoon animation" and "Absolute Moon
    Position", the Earth's position at that time plus the point of the
    Moon's circle of radius 3.5 at the angle [time * 0.5], looks at
    that point and moves the camera towards that point plus
    [(1, 0.5, 2)].  The Moon's orbit group is mounted inside the
    Earth's group and turns with it, so the Moon is drawn at the
    Earth's position plus the point of that circle at the angle
    [earthAngle + time * 0.5].  The point looked at is the Moon's
    position only when [cos earthAngle = 1]; at time 0, from the
    groups as they are mounted, the camera looks beside the Moon and
    its target position is not the Moon's position plus the offset. *)
Theorem moon_focus_misses_the_drawn_moon (zoomLevel time : R) (cam : SolarSystem.Camera)
    (inputs : list (option Rotation * R * R)) (m : Moon) :
  let earthAngle := time * 1.0 * 0.2 + 2 in
  let e := Planet_useFrame earth None zoomLevel time (Planet_frames earth inputs mounted) in
  let parent := bodyWorldPosition earth e in
  let drawn := moonWorldPosition 3.5 e (RealisticMoon_useFrame time m) in
  let tick := SolarSystem.useFrame "MOON" zoomLevel time cam in
  let offset := Vector3.mk 1 0.5 2 in
  parent = SolarSystem.lookedAt (SolarSystem.useFrame "EARTH" zoomLevel time cam)
  /\ drawn = Vector3.add parent (Spec.orbit 3.5 (earthAngle + time * 0.5))
  /\ SolarSystem.lookedAt tick = Vector3.add parent (Spec.orbit 3.5 (time * 0.5))
  /\ SolarSystem.position (SolarSystem.camera tick)
     = Spec.smooth (SolarSystem.position cam) (Vector3.add (SolarSystem.lookedAt tick) offset)
  /\ (SolarSystem.lookedAt tick = drawn <-> cos earthAngle = 1)
  /\ (cos earthAngle <> 1 ->
      Vector3.add (SolarSystem.lookedAt tick) offset <> Vector3.add drawn offset)
  /\ SolarSystem.lookedAt (SolarSystem.useFrame "MOON" 0.2 0 Samples.initial_camera)
     <> moonWorldPosition 3.5 (Planet_useFrame earth None 0.2 0 mounted)
          (RealisticMoon_useFrame 0 (mkMoon 0 0)).
Proof.
  cbv zeta.
  rewrite bodyWorldPosition_after_frame by (apply Planet_frames_position; reflexivity).
  rewrite moonWorldPosition_after_frame.
  cbn [earth distance speed rotationOffset].
  set (earthAngle := time * 1.0 * 0.2 + 2).
  assert (Hlooked :
    SolarSystem.lookedAt (SolarSystem.useFrame "MOON" zoomLevel time cam)
    = Vector3.add (Spec.orbit 18 earthAngle) (Spec.orbit 3.5 (time * 0.5))).
  { unfold Vector3.add, Spec.orbit, earthAngle; cbn. f_equal; lra. }
  assert (Hiff :
    Vector3.add (Spec.orbit 18 earthAngle) (Spec.orbit 3.5 (time * 0.5))
    = Vector3.add (Spec.orbit 18 earthAngle) (Spec.orbit 3.5 (earthAngle + time * 0.5))
    <-> cos earthAngle = 1).
  { split.
    - intros Heq. symmetry in Heq. apply turned_apart in Heq; [exact Heq|lra].
    - intros Hcos. pose proof (sin2_cos2 earthAngle) as H. unfold Rsqr in H.
      assert (Hsin : sin earthAngle = 0) by nra.
      unfold Spec.orbit. rewrite cos_plus, sin_plus, Hcos, Hsin.
      unfold Vector3.add; cbn. f_equal; ring. }
  split; [reflexivity|]. split; [reflexivity|]. split; [exact Hlooked|].
  split.
  { rewrite Hlooked. cbn. unfold Spec.smooth, Vector3.add, Vector3.lerp, Spec.orbit; cbn.
    f_equal; lra. }
  rewrite Hlooked. split; [exact Hiff|]. split.
  { intros Hcos Heq. apply add_cancel_r in Heq. apply Hcos, Hiff, Heq. }
  change mounted with (Planet_frames earth [] mounted).
  rewrite moonWorldPosition_after_frame.
  intros Heq.
  assert (Heq' :
    Vector3.add (Spec.orbit 18 (0 * 1.0 * 0.2 + 2)) (Spec.orbit 3.5 (0 * 0.5))
    = Vector3.add (Spec.orbit 18 (0 * 1.0 * 0.2 + 2))
        (Spec.orbit 3.5 ((0 * 1.0 * 0.2 + 2) + 0 * 0.5))).
  { rewrite <- Heq. unfold Vector3.add, Spec.orbit; cbn. f_equal; lra. }
  symmetry in Heq'. apply turned_apart in Heq'; [|lra].
  apply cos_2_not_1. rewrite <- Heq'. f_equal. lra.
Qed.

End Planets.

(** ** Smoothing over many frames *)

Section Smoothing.

Import Store.

(** One smoothing step leaves the fraction [1 - t] of the gap. *)
Lemma lerp_gap (x y t : R) : MathUtils.lerp x y t - y = (1 - t) * (x - y).
Proof. unfold MathUtils.lerp; ring. Qed.

(** A gap that shrinks by the factor [q], [0 <= q < 1], each step gets
    below every positive bound. *)
Lemma shrinking_gap (q c eps : R) :
  0 <= q < 1 -> 0 < eps ->
  exists N : nat, forall n : nat, (N <= n)%nat -> Rabs (q ^ n * c) < eps.
Proof.
  intros Hq Heps.
  assert (Hc : 0 < Rabs c + 1) by (pose proof (Rabs_pos c); lra).
  destruct (pow_lt_1_zero q) with (y := eps / (Rabs c + 1)) as [N HN].
  - rewrite Rabs_right; lra.
  - apply Rdiv_lt_0_compat; assumption.
  - exists N; intros n Hn. specialize (HN n Hn). rewrite Rabs_mult.
    pose proof (Rabs_pos c) as Hc0. pose proof (Rabs_pos (q ^ n)) as Hq0.
    assert (Rabs (q ^ n) * (Rabs c + 1) < eps).
    { replace eps with (eps / (Rabs c + 1) * (Rabs c + 1)) by (field; lra).
      apply Rmult_lt_compat_r; assumption. }
    nra.
Qed.

Lemma ticks_snoc (focus : string) (inputs : list (R * R)) (zt : R * R) (cam : SolarSystem.Camera) :
  CameraRun.ticks focus (inputs ++ [zt]) cam
  = SolarSystem.camera (SolarSystem.useFrame focus (fst zt) (snd zt) (CameraRun.ticks focus inputs cam)).
Proof. unfold CameraRun.ticks; rewrite fold_left_app; reflexivity. Qed.

Lemma none_is_unfocused : ~ In "NONE" ["SATURN"; "EARTH"; "MOON"].
Proof. cbn; intros [H|[H|[H|[]]]]; discriminate H. Qed.

(** X14.  The unfocused camera runs on a rail.  With the focus on NONE, from
    a camera on the line [x = 0], [y = 20] with [4 <= z <= 90] (as the
    camera [App] creates), after any run of frames whose zoom levels
    are in [[-0.5, 1.0]] the camera is still on that line with
    [4 <= z <= 90]. *)
Theorem unfocused_camera_stays_on_its_rail (inputs : list (R * R)) (cam : SolarSystem.Camera) :
  Forall (fun zt => zoom_in_range (fst zt)) inputs ->
  Vector3.x (SolarSystem.position cam) = 0 ->
  Vector3.y (SolarSystem.position cam) = 20 ->
  4 <= Vector3.z (SolarSystem.position cam) <= 90 ->
  let cam' := CameraRun.ticks "NONE" inputs cam in
  Vector3.x (SolarSystem.position cam') = 0
  /\ Vector3.y (SolarSystem.position cam') = 20
  /\ 4 <= Vector3.z (SolarSystem.position cam') <= 90.
Proof.
  intros Hin Hx Hy Hz; cbv zeta.
  induction inputs as [|[z t] inputs IH] using rev_ind; [repeat split; tauto|].
  apply Forall_app in Hin as [Hin Hlast]. inversion Hlast as [|? ? [Hlo Hhi] _]; subst.
  destruct (IH Hin) as (IHx & IHy & IHz). clear IH.
  rewrite ticks_snoc, (unfocused_position "NONE" _ _ _ none_is_unfocused).
  cbn [fst snd] in *. unfold MIN_ZOOM, MAX_ZOOM in Hlo, Hhi.
  unfold Spec.smooth, Vector3.add; cbn [Vector3.x Vector3.y Vector3.z].
  rewrite IHx, IHy. split; [lra|]. split; [lra|].
  unfold MathUtils.lerp. destruct (Rltb z 0) eqn:E.
  - apply Rltb_true in E. rewrite Rabs_left by exact E. lra.
  - apply Rltb_false in E. lra.
Qed.

Lemma unfocused_camera_stays_on_its_rail_witness :
  Forall (fun zt => zoom_in_range (fst zt)) [(0.2, 0); (1, 1); (-0.5, 2)]
  /\ 4 <= Vector3.z (SolarSystem.position Samples.initial_camera) <= 90
  /\ 4 <= Vector3.z (SolarSystem.position
                       (CameraRun.ticks "NONE" [(0.2, 0); (1, 1); (-0.5, 2)]
                          Samples.initial_camera)) <= 90.
Proof.
  assert (Hin : Forall (fun zt => zoom_in_range (fst zt)) [(0.2, 0); (1, 1); (-0.5, 2)]).
  { repeat constructor; unfold MIN_ZOOM, MAX_ZOOM; cbn; lra. }
  assert (Hz : 4 <= Vector3.z (SolarSystem.position Samples.initial_camera) <= 90)
    by (cbn; lra).
  exact (conj Hin (conj Hz
           (proj2 (proj2 (unfocused_camera_stays_on_its_rail _ Samples.initial_camera
                            Hin eq_refl eq_refl Hz))))).
Defined.

(** X15.  While the zoom level stays the same, the unfocused camera closes
    5 percent of its gap to the target in every frame: after [n] frames
    each coordinate of its position is the target's plus [0.95 ^ n]
    times the gap it started with.  So it never overshoots: its
    distance [z] stays between where it started and the target
    [zPos], and its gap to the target never grows. *)
Theorem unfocused_camera_closes_its_gap (zoomLevel : R) (times : list R)
    (cam : SolarSystem.Camera) :
  let zPos := if Rltb zoomLevel 0 then 60 + (Rabs zoomLevel / 0.5) * 30
              else MathUtils.lerp 60 4 zoomLevel in
  let after (ts : list R) :=
    SolarSystem.position (CameraRun.ticks "NONE" (map (fun t => (zoomLevel, t)) ts) cam) in
  let p := SolarSystem.position cam in
  (Vector3.x (after times) = 0 + 0.95 ^ List.length times * (Vector3.x p - 0)
   /\ Vector3.y (after times) = 20 + 0.95 ^ List.length times * (Vector3.y p - 20)
   /\ Vector3.z (after times) = zPos + 0.95 ^ List.length times * (Vector3.z p - zPos))
  /\ Rmin (Vector3.z p) zPos <= Vector3.z (after times) <= Rmax (Vector3.z p) zPos
  /\ (forall t : R,
        Rabs (Vector3.z (after ((times ++ [t])%list)) - zPos) <= Rabs (Vector3.z (after times) - zPos)).
Proof.
  cbv zeta.
  set (zPos := if Rltb zoomLevel 0 then 60 + (Rabs zoomLevel / 0.5) * 30
               else MathUtils.lerp 60 4 zoomLevel).
  assert (Hform : forall ts : list R,
    Vector3.x (SolarSystem.position (CameraRun.ticks "NONE" (map (fun t => (zoomLevel, t)) ts) cam))
      = 0 + 0.95 ^ List.length ts * (Vector3.x (SolarSystem.position cam) - 0)
    /\ Vector3.y (SolarSystem.position (CameraRun.ticks "NONE" (map (fun t => (zoomLevel, t)) ts) cam))
      = 20 + 0.95 ^ List.length ts * (Vector3.y (SolarSystem.position cam) - 20)
    /\ Vector3.z (SolarSystem.position (CameraRun.ticks "NONE" (map (fun t => (zoomLevel, t)) ts) cam))
      = zPos + 0.95 ^ List.length ts * (Vector3.z (SolarSystem.position cam) - zPos)).
  { induction ts as [|t ts IH] using rev_ind.
    - cbn. repeat split; ring.
    - destruct IH as (IHx & IHy & IHz).
      rewrite map_app, length_app; cbn [map List.length].
      rewrite ticks_snoc, (unfocused_position "NONE" _ _ _ none_is_unfocused).
      cbn [fst snd]. fold zPos.
      unfold Spec.smooth, Vector3.add; cbn [Vector3.x Vector3.y Vector3.z].
      rewrite IHx, IHy, IHz. rewrite Nat.add_1_r; cbn [pow].
      generalize (0.95 ^ List.length ts); intros q. split; [|split]; lra. }
  assert (Hq : forall n : nat, 0 < 0.95 ^ n <= 1).
  { intros n; split; [apply pow_lt; lra|].
    induction n as [|n IHn]; cbn [pow]; [lra|].
    assert (0 < 0.95 ^ n) by (apply pow_lt; lra). nra. }
  split; [apply Hform|]. split.
  - destruct (Hform times) as (_ & _ & ->).
    destruct (Hq (List.length times)) as [Hq0 Hq1].
    generalize dependent (0.95 ^ List.length times); intros q Hq0 Hq1.
    unfold Rmin, Rmax; destruct (Rle_dec _ _); nra.
  - intros t.
    destruct (Hform ((times ++ [t])%list)) as (_ & _ & ->).
    destruct (Hform times) as (_ & _ & ->).
    rewrite length_app, Nat.add_1_r; cbn [List.length pow].
    destruct (Hq (List.length times)) as [Hq0 Hq1].
    generalize dependent (0.95 ^ List.length times); intros q Hq0 Hq1.
    replace (zPos + 0.95 * q * (Vector3.z (SolarSystem.position cam) - zPos) - zPos)
      with (0.95 * (q * (Vector3.z (SolarSystem.position cam) - zPos))) by ring.
    replace (zPos + q * (Vector3.z (SolarSystem.position cam) - zPos) - zPos)
      with (q * (Vector3.z (SolarSystem.position cam) - zPos)) by ring.
    rewrite Rabs_mult. rewrite (Rabs_right 0.95) by lra.
    pose proof (Rabs_pos (q * (Vector3.z (SolarSystem.position cam) - zPos))). lra.
Qed.

End Smoothing.

(** ** What follows the zoom level and the pointing direction *)

Section Followers.

Import Store Scene.

Lemma runs_snoc {A : Type} (tick : R -> A -> A) (zs : list R) (z : R) (a : A) :
  runs tick (zs ++ [z]) a = tick z (runs tick zs a).
Proof. unfold runs; rewrite fold_left_app; reflexivity. Qed.

(** X16.  The particles never scatter fully.  From a [uScatter] between -0.5
    and 1 (it starts at 0), after any run of frames whose zoom levels
    are in [[-0.5, 1.0]], [uScatter] is still between -0.5 and 1; so the
    shader's [scatterEffect] is between 0 and 1, a particle is moved by
    at most 15 along its scatter direction, and the fading factor of
    its alpha is at least 0.5.  Up to [uScatter = 0.8] there is no
    scatter and no fading at all. *)
Theorem particles_never_scatter_fully (zoomLevels : list R) (u0 : R) :
  Forall zoom_in_range zoomLevels -> -0.5 <= u0 <= 1 ->
  let u := runs ParticleSphere.useFrame zoomLevels u0 in
  -0.5 <= u <= 1
  /\ 0 <= ParticleSphere.scatterEffect u <= 1
  /\ 0 <= ParticleSphere.movement u <= 15
  /\ 0.5 <= ParticleSphere.fade u <= 1
  /\ (u <= 0.8 -> ParticleSphere.scatterEffect u = 0 /\ ParticleSphere.fade u = 1).
Proof.
  intros Hin Hu0; cbv zeta.
  assert (Hu : -0.5 <= runs ParticleSphere.useFrame zoomLevels u0 <= 1).
  { induction zoomLevels as [|z zs IH] using rev_ind; [exact Hu0|].
    apply Forall_app in Hin as [Hin Hlast]. inversion Hlast as [|? ? [Hlo Hhi] _]; subst.
    specialize (IH Hin). rewrite runs_snoc.
    revert IH; generalize (runs ParticleSphere.useFrame zs u0); intros u IH.
    unfold ParticleSphere.useFrame, MathUtils.lerp.
    unfold MIN_ZOOM, MAX_ZOOM in Hlo, Hhi. lra. }
  revert Hu. generalize (runs ParticleSphere.useFrame zoomLevels u0). intros u Hu.
  unfold ParticleSphere.fade, ParticleSphere.movement, ParticleSphere.scatterEffect, Rmax, Rmin.
  destruct (Rle_dec 0.0 (u - 0.8)); destruct (Rle_dec _ _); repeat split; intros; lra.
Qed.

Lemma particles_never_scatter_fully_witness :
  Forall zoom_in_range [0.2; 1; 1] /\ -0.5 <= 0 <= 1
  /\ ParticleSphere.scatterEffect (runs ParticleSphere.useFrame [0.2; 1; 1] 0) <= 1.
Proof.
  assert (Hin : Forall zoom_in_range [0.2; 1; 1]).
  { repeat constructor; unfold MIN_ZOOM, MAX_ZOOM; lra. }
  assert (Hu : -0.5 <= 0 <= 1) by lra.
  pose proof (particles_never_scatter_fully [0.2; 1; 1] 0 Hin Hu) as (_ & Heff & _).
  exact (conj Hin (conj Hu (proj2 Heff))).
Defined.






End Followers.

(** ** Holding a gesture *)

Section HeldGesture.

Import Store WebcamLoop.

(** The level a run of OPEN frames leaves, with the numbers read as
    real numbers. *)
Lemma held_open_generic (body : list (list Landmark.t) -> Eff.t unit)
    (rules : list Landmark.t -> list (string * bool)) :
  (forall f s, (21 <= List.length f)%nat ->
     body [f] s = (Eff.Returned tt, Spec.prescribed (Spec.first_match (rules f)) (Landmark.pt f 8) s)) ->
  forall (hands : list (list Landmark.t)) (s : AppState),
    zoom_in_range (zoomLevel s) ->
    Forall (fun f => (21 <= List.length f)%nat /\ Spec.first_match (rules f) = "OPEN") hands ->
    zoomLevel (frames body (map (fun f => LoopSamples.seeing [f]) hands) s)
      = Rmin MAX_ZOOM (zoomLevel s + INR (List.length hands) * 0.015)
    /\ focusTarget (frames body (map (fun f => LoopSamples.seeing [f]) hands) s) = focusTarget s
    /\ saturnRotation (frames body (map (fun f => LoopSamples.seeing [f]) hands) s)
       = saturnRotation s
    /\ (hands <> [] ->
        gestureStatus (frames body (map (fun f => LoopSamples.seeing [f]) hands) s) = "OPEN").
Proof.
  intros Hbody hands; induction hands as [|f rest IH]; intros s Hs Hall.
  - cbn. destruct Hs as [Hlo Hhi]. repeat split; try tauto.
    unfold Rmin; destruct (Rle_dec _ _); lra.
  - inversion Hall as [|? ? [Hf Hopen] Hrest]; subst.
    set (s1 := Spec.prescribed "OPEN" (Landmark.pt f 8) s).
    assert (Hstep : frames body (map (fun f => LoopSamples.seeing [f]) (f :: rest)) s
                    = frames body (map (fun f => LoopSamples.seeing [f]) rest) s1).
    { cbn [map frames]. unfold predictWebcam.
      cbn [LoopSamples.seeing handLandmarker videoRef_current canvasRef_current
           results_landmarks Nat.eqb orb].
      rewrite (Hbody f s Hf), Hopen. reflexivity. }
    rewrite Hstep.
    assert (Hz1 : zoomLevel s1 = Rmax MIN_ZOOM (Rmin MAX_ZOOM (zoomLevel s + 0.015)))
      by reflexivity.
    assert (Hs1 : zoom_in_range (zoomLevel s1)) by (rewrite Hz1; apply clamp_in_range).
    destruct (IH s1 Hs1 Hrest) as (IHz & IHf & IHr & IHg).
    split; [|split; [|split]].
    + rewrite IHz, Hz1. cbn [List.length]. rewrite S_INR.
      pose proof (pos_INR (List.length rest)) as Hn. destruct Hs as [Hlo Hhi].
      revert Hlo Hhi; unfold MIN_ZOOM, MAX_ZOOM, Rmax, Rmin; intros.
      repeat destruct (Rle_dec _ _); lra.
    + rewrite IHf; reflexivity.
    + rewrite IHr; reflexivity.
    + intros _. destruct rest as [|g rest']; [reflexivity|]. apply IHg; discriminate.
Qed.

Lemma open_hand_rules :
  Spec.first_match (Spec.wrist_rules LoopSamples.open_hand) = "OPEN"
  /\ Spec.first_match (Spec.vertical_rules LoopSamples.open_hand) = "OPEN".
Proof.
  split; cbv [LoopSamples.open_hand]; unfold_sample; decide_comparisons; reflexivity.
Qed.

(** What the step formula gives: the level rises, stays in range, and
    is [MAX_ZOOM] after 100 frames. *)
Lemma held_open_summary (body : list (list Landmark.t) -> Eff.t unit)
    (rules : list Landmark.t -> list (string * bool)) :
  (forall f s, (21 <= List.length f)%nat ->
     body [f] s = (Eff.Returned tt, Spec.prescribed (Spec.first_match (rules f)) (Landmark.pt f 8) s)) ->
  forall (hands : list (list Landmark.t)) (s : AppState),
    zoom_in_range (zoomLevel s) ->
    Forall (fun f => (21 <= List.length f)%nat /\ Spec.first_match (rules f) = "OPEN") hands ->
    let after := frames body (map (fun f => LoopSamples.seeing [f]) hands) s in
    zoomLevel s <= zoomLevel after <= MAX_ZOOM
    /\ (hands <> [] -> zoomLevel s < MAX_ZOOM -> zoomLevel s < zoomLevel after)
    /\ ((100 <= List.length hands)%nat -> zoomLevel after = MAX_ZOOM)
    /\ focusTarget after = focusTarget s
    /\ saturnRotation after = saturnRotation s
    /\ (hands <> [] -> gestureStatus after = "OPEN").
Proof.
  intros Hbody hands s Hs Hall; cbv zeta.
  destruct (held_open_generic body rules Hbody hands s Hs Hall) as (Hz & Hf & Hr & Hg).
  rewrite Hz. destruct Hs as [Hlo Hhi]. unfold MIN_ZOOM, MAX_ZOOM in *.
  pose proof (pos_INR (List.length hands)) as Hn.
  split; [|split; [|split; [|repeat split; assumption]]].
  - unfold Rmin; destruct (Rle_dec _ _); lra.
  - intros Hne Hlt. destruct hands as [|f rest]; [contradiction Hne; reflexivity|].
    cbn [List.length] in *. rewrite S_INR in *.
    pose proof (pos_INR (List.length rest)).
    unfold Rmin; destruct (Rle_dec _ _); lra.
  - intros Hlen. apply le_INR in Hlen.
    replace (INR 100) with 100 in Hlen by (cbn; lra).
    unfold Rmin; destruct (Rle_dec _ _); lra.
Qed.

(** X19.  Holding an open hand zooms in.  Over a run of frames that
    all show a hand of at least 21 landmarks that a version of the
    gesture logic reads as OPEN, from a zoom level in range, that
    version never lowers the zoom level and keeps it in range; the
    level ends above where it started unless it was 1.0 already, and
    after 100 such frames it is 1.0.  The focus target and the stored
    rotation stay as they were, so a planet that was locked stays
    locked, and the label is OPEN.  This holds for each version of
    the gesture logic on the frames it reads as OPEN. *)
Theorem open_hand_zooms_in_steps (hands : list (list Landmark.t)) (s : AppState) :
  zoom_in_range (zoomLevel s) ->
  let held (after : AppState) :=
    zoomLevel s <= zoomLevel after <= MAX_ZOOM
    /\ (hands <> [] -> zoomLevel s < MAX_ZOOM -> zoomLevel s < zoomLevel after)
    /\ ((100 <= List.length hands)%nat -> zoomLevel after = MAX_ZOOM)
    /\ focusTarget after = focusTarget s
    /\ saturnRotation after = saturnRotation s
    /\ (hands <> [] -> gestureStatus after = "OPEN") in
  (Forall (fun f => (21 <= List.length f)%nat
                    /\ Spec.first_match (Spec.wrist_rules f) = "OPEN") hands ->
   held (frames HandTrackerWrist.predictWebcam (map (fun f => LoopSamples.seeing [f]) hands) s))
  /\ (Forall (fun f => (21 <= List.length f)%nat
                       /\ Spec.first_match (Spec.vertical_rules f) = "OPEN") hands ->
      held (frames HandTracker.predictWebcam (map (fun f => LoopSamples.seeing [f]) hands) s)).
Proof.
  intros Hs; cbv zeta; split; intros Hall.
  - exact (held_open_summary _ Spec.wrist_rules wrist_predictWebcam_long hands s Hs Hall).
  - exact (held_open_summary _ Spec.vertical_rules predictWebcam_long hands s Hs Hall).
Qed.

Lemma open_hand_zooms_in_steps_witness :
  zoom_in_range (zoomLevel useStore)
  /\ zoomLevel useStore
     < zoomLevel (frames HandTracker.predictWebcam
                    (map (fun f => LoopSamples.seeing [f])
                       [LoopSamples.open_hand; LoopSamples.open_hand]) useStore).
Proof.
  assert (Hs : zoom_in_range (zoomLevel useStore))
    by (unfold zoom_in_range, MIN_ZOOM, MAX_ZOOM; cbn; lra).
  assert (Hone : (21 <= List.length LoopSamples.open_hand)%nat
                 /\ Spec.first_match (Spec.vertical_rules LoopSamples.open_hand) = "OPEN").
  { split; [cbn; lia|exact (proj2 open_hand_rules)]. }
  assert (Hall : Forall (fun f => (21 <= List.length f)%nat
                   /\ Spec.first_match (Spec.vertical_rules f) = "OPEN")
                   [LoopSamples.open_hand; LoopSamples.open_hand])
    by (repeat constructor; apply Hone).
  assert (Hne : [LoopSamples.open_hand; LoopSamples.open_hand] <> []) by discriminate.
  assert (Hlt : zoomLevel useStore < MAX_ZOOM) by (unfold MAX_ZOOM; cbn; lra).
  exact (conj Hs
           (proj1 (proj2 (proj2 (open_hand_zooms_in_steps _ useStore Hs) Hall)) Hne Hlt)).
Defined.

End HeldGesture.

(** ** The values the store holds *)

Section StoredValues.

Import Store WebcamLoop.

Lemma more_sample_rules :
  Spec.first_match (Spec.wrist_rules LoopSamples.two_fingers) = "TWO"
  /\ Spec.first_match (Spec.vertical_rules LoopSamples.two_fingers) = "TWO"
  /\ Spec.first_match (Spec.wrist_rules LoopSamples.fist) = "PINCH"
  /\ Spec.first_match (Spec.vertical_rules LoopSamples.fist) = "PINCH".
Proof.
  repeat apply conj;
    cbv [LoopSamples.two_fingers LoopSamples.fist LoopSamples.fist_landmark];
    unfold_sample; cbv [LoopSamples.fist_landmark]; decide_comparisons; reflexivity.
Qed.

(** What each sample hand leaves in the initial store, in either
    version. *)
Lemma sample_hand_stored (f : list Landmark.t) (label : string) :
  (21 <= List.length f)%nat ->
  Spec.first_match (Spec.wrist_rules f) = label ->
  Spec.first_match (Spec.vertical_rules f) = label ->
  snd (HandTrackerWrist.predictWebcam [f] useStore) = Spec.prescribed label (Landmark.pt f 8) useStore
  /\ snd (HandTracker.predictWebcam [f] useStore) = Spec.prescribed label (Landmark.pt f 8) useStore.
Proof.
  intros Hf Hw Hv.
  rewrite (wrist_predictWebcam_long f useStore Hf), (predictWebcam_long f useStore Hf), Hw, Hv.
  split; reflexivity.
Qed.

(** C5.  The store's [gestureStatus] ranges over IDLE, POINT, PINCH,
    TWO, THREE and OPEN and its [focusTarget] over NONE, SATURN, EARTH
    and MOON: after any run of animation frames of either tracker from
    the initial store the two fields hold one of these values, and
    each of these values is the one stored after a suitable frame.
    The setters check nothing, so THREE and MOON are accepted and held
    like the others: a hand showing three fingers leaves the label
    THREE and the target MOON in the store. *)
Theorem store_holds_six_labels_and_four_targets :
  (forall calls : list Invocation,
      (In (gestureStatus (frames HandTrackerWrist.predictWebcam calls useStore)) Spec.labels
       /\ In (focusTarget (frames HandTrackerWrist.predictWebcam calls useStore)) Spec.focus_targets)
      /\ (In (gestureStatus (frames HandTracker.predictWebcam calls useStore)) Spec.labels
          /\ In (focusTarget (frames HandTracker.predictWebcam calls useStore)) Spec.focus_targets))
  /\ (forall label : string, In label Spec.labels ->
        exists hands : list (list Landmark.t),
          gestureStatus (snd (HandTrackerWrist.predictWebcam hands useStore)) = label
          /\ gestureStatus (snd (HandTracker.predictWebcam hands useStore)) = label)
  /\ (forall target : string, In target Spec.focus_targets ->
        exists hands : list (list Landmark.t),
          focusTarget (snd (HandTrackerWrist.predictWebcam hands useStore)) = target
          /\ focusTarget (snd (HandTracker.predictWebcam hands useStore)) = target)
  /\ HandTrackerWrist.predictWebcam [Samples.three_fingers] useStore
     = (Eff.Returned tt, mkAppState 0.2 "THREE" "MOON" (mkRotation 0 0))
  /\ HandTracker.predictWebcam [Samples.three_fingers] useStore
     = (Eff.Returned tt, mkAppState 0.2 "THREE" "MOON" (mkRotation 0 0))
  /\ (forall s : AppState,
        gestureStatus (setGestureStatus "THREE" s) = "THREE"
        /\ focusTarget (setFocusTarget "MOON" s) = "MOON").
Proof.
  assert (Hinit : well_formed useStore).
  { unfold well_formed, zoom_in_range, MIN_ZOOM, MAX_ZOOM; cbn. repeat split; try lra; tauto. }
  assert (H21 : forall g, (21 <= List.length (Samples.frame_of g))%nat) by (intros g; cbn; lia).
  destruct more_sample_rules as (Htw & Htv & Hfw & Hfv).
  destruct open_hand_rules as (How & Hov).
  pose proof (sample_hand_stored Samples.pointing_pinched "POINT" (H21 _)
                ltac:(rewrite wrist_rules_pointing_pinched; reflexivity)
                ltac:(rewrite vertical_rules_pointing_pinched; reflexivity)) as [Pw Pv].
  pose proof (sample_hand_stored Samples.three_fingers "THREE" (H21 _)
                ltac:(rewrite wrist_rules_three_fingers; reflexivity)
                ltac:(rewrite vertical_rules_three_fingers; reflexivity)) as [Tw Tv].
  pose proof (sample_hand_stored LoopSamples.two_fingers "TWO" (H21 _) Htw Htv) as [Ww Wv].
  pose proof (sample_hand_stored LoopSamples.fist "PINCH" (H21 _) Hfw Hfv) as [Fw Fv].
  pose proof (sample_hand_stored LoopSamples.open_hand "OPEN" (H21 _) How Hov) as [Ow Ov].
  split.
  { intros calls.
    pose proof (frames_well_formed _ calls useStore wrist_body_cases Hinit) as (_ & Hg & Hf).
    pose proof (frames_well_formed _ calls useStore vertical_body_cases Hinit) as (_ & Hg' & Hf').
    tauto. }
  split.
  { intros label Hl; cbn in Hl.
    destruct Hl as [<-|[<-|[<-|[<-|[<-|[<-|[]]]]]]].
    - exists []; split; reflexivity.
    - exists [Samples.pointing_pinched]; rewrite Pw, Pv; split; reflexivity.
    - exists [LoopSamples.fist]; rewrite Fw, Fv; split; reflexivity.
    - exists [LoopSamples.two_fingers]; rewrite Ww, Wv; split; reflexivity.
    - exists [Samples.three_fingers]; rewrite Tw, Tv; split; reflexivity.
    - exists [LoopSamples.open_hand]; rewrite Ow, Ov; split; reflexivity. }
  split.
  { intros target Ht; cbn in Ht.
    destruct Ht as [<-|[<-|[<-|[<-|[]]]]].
    - exists []; split; reflexivity.
    - exists [Samples.pointing_pinched]; rewrite Pw, Pv; split; reflexivity.
    - exists [LoopSamples.two_fingers]; rewrite Ww, Wv; split; reflexivity.
    - exists [Samples.three_fingers]; rewrite Tw, Tv; split; reflexivity. }
  split.
  { rewrite wrist_predictWebcam_long by apply H21.
    rewrite wrist_rules_three_fingers. reflexivity. }
  split.
  { rewrite predictWebcam_long by apply H21.
    rewrite vertical_rules_three_fingers. reflexivity. }
  intros s; split; reflexivity.
Qed.

End StoredValues.
